(** * wikimedia_downloader: a shallow embedding of [wikimedia_downloader.py]

    The script searches the Wikimedia Commons API for images, downloads up
    to a requested number of them into [./downloads/<term>/] and writes a
    markdown report.  This file embeds its functions as Rocq functions over
    an explicit program state and proves (or refutes) the properties its
    specification states.

    Modelling conventions.

    - Python [str] is [string]; the text is ASCII (one [ascii] per
      character), and a [str] written to a text file is its own encoding.
    - Python [int] is [Z].
    - The file system is a finite map from paths to the bytes of regular
      files.  Directories are not entries of the map: [mkdir] is recorded
      as an event only, and whether a file can be opened for writing at a
      path (its directory exists, permissions) is a property of the
      environment, [writable].  The paths the script writes to are taken
      not to name directories, and removing an existing regular file
      succeeds.
    - The network is an oracle of the environment: the reply to a request
      depends on the request and on the moment it is issued (the number of
      events the run has performed so far).
    - The effects the script performs without changing the file system
      (requests, [time.sleep], [mkdir]) are recorded, most recent first,
      in the [log] of the state.  Text printed to the terminal is not
      modelled, except where formatting it can raise.
    - A Python exception is the [Raise] result of the monad [M].
    - [get_file_info] is defined by the script and never called; it is
      embedded over an oracle of its own.  The search term reaches the API
      inside the query parameters; the oracle is asked for the term
      itself. *)

From Stdlib Require Import ZArith String Ascii Strings.Byte List Lia Bool.
From stdpp Require Import base option list gmap strings pretty.

Open Scope string_scope.
Open Scope list_scope.
Open Scope Z_scope.

(** ** Python strings *)

Module PyStr.

(** [str.replace(old, new)]: the occurrences of [old] are found from the
    left and do not overlap.  [skip] counts the characters of a matched
    occurrence that are still to be dropped. *)
Fixpoint replace_go (old new : string) (skip : nat) (s : string) : string :=
  match s with
  | EmptyString => EmptyString
  | String c s' =>
      match skip with
      | S k => replace_go old new k s'
      | O =>
          if String.prefix old s
          then new +:+ replace_go old new (String.length old - 1) s'
          else String c (replace_go old new 0 s')
      end
  end.

(** With an empty [old], Python inserts [new] before every character and
    at the end. *)
Fixpoint replace_empty (new s : string) : string :=
  match s with
  | EmptyString => new
  | String c s' => new +:+ String c (replace_empty new s')
  end.

Definition replace (old new s : string) : string :=
  match old with
  | EmptyString => replace_empty new s
  | _ => replace_go old new 0 s
  end.

(** The ASCII characters [str.strip] treats as whitespace: TAB, LF, VT,
    FF, CR, FS, GS, RS, US and the space. *)
Definition is_space (c : ascii) : bool :=
  let n := nat_of_ascii c in
  ((9 <=? n)%nat && (n <=? 13)%nat)
  || ((28 <=? n)%nat && (n <=? 31)%nat)
  || (n =? 32)%nat.

(** The characters [int] skips around a literal: TAB, LF, VT, FF, CR and
    the space. *)
Definition is_c_space (c : ascii) : bool :=
  let n := nat_of_ascii c in
  ((9 <=? n)%nat && (n <=? 13)%nat) || (n =? 32)%nat.

Fixpoint lstrip_by (sp : ascii -> bool) (s : string) : string :=
  match s with
  | EmptyString => EmptyString
  | String c s' => if sp c then lstrip_by sp s' else s
  end.

Fixpoint rev_onto (s acc : string) : string :=
  match s with
  | EmptyString => acc
  | String c s' => rev_onto s' (String c acc)
  end.

Definition rstrip_by (sp : ascii -> bool) (s : string) : string :=
  rev_onto (lstrip_by sp (rev_onto s "")) "".

Definition strip_by (sp : ascii -> bool) (s : string) : string :=
  rstrip_by sp (lstrip_by sp s).

(** [s.strip()] *)
Definition strip (s : string) : string := strip_by is_space s.

Definition digit_val (c : ascii) : option Z :=
  let n := nat_of_ascii c in
  if ((48 <=? n)%nat && (n <=? 57)%nat) then Some (Z.of_nat n - 48) else None.

(** The digits of a decimal literal: single underscores are allowed
    between digits only.  [prev] tells whether the previous character
    was a digit. *)
Fixpoint parse_digits (s : string) (acc : Z) (prev : bool) : option Z :=
  match s with
  | EmptyString => if prev then Some acc else None
  | String c s' =>
      if Ascii.eqb c "_"
      then (if prev then parse_digits s' acc false else None)
      else match digit_val c with
           | Some d => parse_digits s' (10 * acc + d) true
           | None => None
           end
  end.

Fixpoint count_digits (s : string) : nat :=
  match s with
  | EmptyString => 0
  | String c s' =>
      match digit_val c with
      | Some _ => S (count_digits s')
      | None => count_digits s'
      end
  end.

(** [int(s)] in base 10: [None] stands for [ValueError].  [max_digits] is
    the interpreter's limit on the digits of a literal
    ([sys.get_int_max_str_digits()]: 4300 unless configured, and none in
    older interpreters); a literal with more digits is refused. *)
Definition int (max_digits : option nat) (s : string) : option Z :=
  let literal := strip_by is_c_space s in
  let value :=
    match literal with
    | String "-" s' => Z.opp <$> parse_digits s' 0 false
    | String "+" s' => parse_digits s' 0 false
    | s' => parse_digits s' 0 false
    end in
  match max_digits with
  | Some limit => if (count_digits literal <=? limit)%nat then value else None
  | None => value
  end.

(** [str.split(sep)] for a one-character separator. *)
Fixpoint split (sep : ascii) (s : string) : list string :=
  match s with
  | EmptyString => [EmptyString]
  | String c s' =>
      if Ascii.eqb c sep then EmptyString :: split sep s'
      else match split sep s' with
           | h :: t => String c h :: t
           | [] => [String c EmptyString]
           end
  end.

(** Whether character [c] occurs in [s]. *)
Fixpoint has_char (c : ascii) (s : string) : bool :=
  match s with
  | EmptyString => false
  | String d s' => Ascii.eqb d c || has_char c s'
  end.

(** Whether [old] occurs in [s] as a substring ([old in s]). *)
Fixpoint occurs (old s : string) : bool :=
  match s with
  | EmptyString => String.prefix old EmptyString
  | String _ s' => String.prefix old s || occurs old s'
  end.

End PyStr.

(** [f"{n/1024/1024:.1f} MB"] for a file size [n] in bytes.  For
    [0 <= n < 2^53] the two divisions are exact in binary floating point,
    and the format rounds the exact value to one decimal, ties to even. *)
Definition format_mb (n : Z) : string :=
  let t := n * 10 in
  let q := t / 2 ^ 20 in
  let r := t mod 2 ^ 20 in
  let q' := if (2 ^ 19 <? r) || ((r =? 2 ^ 19) && Z.odd q) then q + 1 else q in
  pretty (q' / 10) +:+ "." +:+ pretty (q' mod 10) +:+ " MB".

(** ** Paths ([pathlib.PurePosixPath]) *)

Record Path : Type := mkPath { root : string; parts : list string }.

Global Instance Path_eq_dec : EqDecision Path.
Proof. solve_decision. Defined.

Global Instance Path_countable : Countable Path.
Proof.
  refine (inj_countable' (fun p => (root p, parts p))
                         (fun x => mkPath x.1 x.2) _).
  by intros [].
Defined.

Module PyPath.

(** The components a string contributes to a path: it is split at the
    slashes; empty components and single dots are dropped. *)
Definition components (s : string) : list string :=
  filter (fun x => x ≠ "" ∧ x ≠ ".") (PyStr.split "/" s).

(** The root of an absolute string: exactly two leading slashes are kept,
    any other number is one slash. *)
Definition root_of (s : string) : string :=
  match s with
  | String "/" (String "/" (String "/" _)) => "/"
  | String "/" (String "/" _) => "//"
  | String "/" _ => "/"
  | _ => ""
  end.

(** [p / s]: an absolute [s] replaces [p]. *)
Definition joinpath (p : Path) (s : string) : Path :=
  match root_of s with
  | EmptyString => mkPath (root p) (parts p ++ components s)
  | r => mkPath r (components s)
  end.

End PyPath.

Notation "p // s" := (PyPath.joinpath p s) (at level 40, left associativity).


(** ** Exceptions, program state and the monad of effects *)

Inductive exn : Type :=
| ConnectionError      (* requests: the request or the stream failed *)
| HTTPError            (* requests: [raise_for_status] *)
| JSONDecodeError      (* requests: [response.json()] *)
| ValueError           (* [int] of a string that is not a number *)
| OverflowError        (* true division with a result too large *)
| OSError              (* [open], [write], [os.remove], [os.path.getsize] *)
| IndexError           (* [l[0]] of an empty list *)
| EOFError.            (* [input] at the end of the input *)

Inductive Res (A : Type) : Type :=
| Ok (a : A)
| Raise (e : exn).
Arguments Ok {A} a.
Arguments Raise {A} e.

(** What the run does to the outside world besides writing files. *)
Inductive Event : Type :=
| EvMkdir (p : Path)
| EvSearch (term : string)
| EvGet (url : string)
| EvSleep (seconds : Z).

Record State : Type := mkState {
  fs : gmap Path (list byte);   (* the regular files and their contents *)
  log : list Event              (* the events so far, most recent first *)
}.

Definition M (A : Type) : Type := State -> State * Res A.

Definition ret {A} (a : A) : M A := fun st => (st, Ok a).

Definition bind {A B} (m : M A) (k : A -> M B) : M B :=
  fun st =>
    match m st with
    | (st', Ok a) => k a st'
    | (st', Raise e) => (st', Raise e)
    end.

Definition raise {A} (e : exn) : M A := fun st => (st, Raise e).

(** [try: m except Exception as e: h e]: the handler runs in the state the
    exception was raised in. *)
Definition try_except {A} (m : M A) (h : exn -> M A) : M A :=
  fun st =>
    match m st with
    | (st', Ok a) => (st', Ok a)
    | (st', Raise e) => h e st'
    end.

Declare Scope py_scope.
Delimit Scope py_scope with py.
Notation "x <- m ;; k" := (bind m (fun x => k))
  (at level 100, m at next level, right associativity) : py_scope.
Notation "m ;;; k" := (bind m (fun _ => k))
  (at level 100, right associativity) : py_scope.
Open Scope py_scope.

Definition emit (e : Event) : M unit :=
  fun st => (mkState (fs st) (e :: log st), Ok tt).

(** ** The environment *)

(** The JSON the API returns, at the shape the script reads it: a field
    may be absent, a field that is present has its type. *)
Record ImageInfo : Type := mkImageInfo {
  ii_url : option string;
  ii_mime : option string;
  ii_size : option Z
}.

Record SearchResult : Type := mkSearchResult {
  title : option string;
  imageinfo : option (list ImageInfo)
}.

Record QueryData : Type := mkQueryData {
  pages : option (list (string * SearchResult))   (* page id -> page *)
}.

Record ApiData : Type := mkApiData { query : option QueryData }.

(** What [requests.get] returns for the search. *)
Record ApiResponse : Type := mkApiResponse {
  api_status_ok : bool;               (* [false]: [raise_for_status] raises *)
  api_json : option ApiData           (* [None]: the body is not JSON *)
}.

(** What [requests.get(url, stream=True)] returns for a download. *)
Record HttpResponse : Type := mkHttpResponse {
  status_ok : bool;                   (* [false]: [raise_for_status] raises *)
  content_length : option string;     (* the header, if the server sent it *)
  body : list (list byte);            (* the chunks [iter_content] yields *)
  complete : bool                     (* [false]: [iter_content] raises after
                                         the last of these chunks *)
}.

Record World : Type := mkWorld {
  cwd : Path;
  api : nat -> string -> option ApiResponse;   (* moment, search term *)
  http : nat -> string -> option HttpResponse; (* moment, url *)
  writable : Path -> bool;          (* can a file be opened for writing here *)
  fsize_limit : option nat;         (* largest file the disk accepts *)
  int_max_str_digits : option nat   (* the interpreter's limit for [int] *)
}.

(** ** Operating-system and library calls *)

Definition time_sleep (seconds : Z) : M unit := emit (EvSleep seconds).

Definition mkdir (p : Path) : M unit := emit (EvMkdir p).

Definition os_path_exists (p : Path) : M bool :=
  fun st => (st, Ok (bool_decide (is_Some (fs st !! p)))).

Definition os_remove (p : Path) : M unit :=
  fun st =>
    match fs st !! p with
    | Some _ => (mkState (delete p (fs st)) (log st), Ok tt)
    | None => (st, Raise OSError)
    end.

Definition os_path_getsize (p : Path) : M Z :=
  fun st =>
    match fs st !! p with
    | Some c => (st, Ok (Z.of_nat (length c)))
    | None => (st, Raise OSError)
    end.

(** [open(p, 'w')] and [open(p, 'wb')]: the file is created or truncated. *)
Definition open_w (w : World) (p : Path) : M unit :=
  fun st =>
    if writable w p
    then (mkState (<[p := []]> (fs st)) (log st), Ok tt)
    else (st, Raise OSError).

Definition within_limit (w : World) (n : nat) : bool :=
  match fsize_limit w with
  | Some l => (n <=? l)%nat
  | None => true
  end.

(** [f.write(data)] on the file opened at [p]: the data is appended, unless
    the file would grow past the limit. *)
Definition fwrite (w : World) (p : Path) (data : list byte) : M unit :=
  fun st =>
    let c := default [] (fs st !! p) ++ data in
    if within_limit w (length c)
    then (mkState (<[p := c]> (fs st)) (log st), Ok tt)
    else (st, Raise OSError).

(** [requests.get] at the current moment; [None] from the environment is
    a transport error. *)
Definition requests_get (w : World) (url : string) : M HttpResponse :=
  fun st =>
    let st' := mkState (fs st) (EvGet url :: log st) in
    match http w (length (log st)) url with
    | Some response => (st', Ok response)
    | None => (st', Raise ConnectionError)
    end.

Definition requests_get_api (w : World) (term : string) : M ApiResponse :=
  fun st =>
    let st' := mkState (fs st) (EvSearch term :: log st) in
    match api w (length (log st)) term with
    | Some response => (st', Ok response)
    | None => (st', Raise ConnectionError)
    end.

(** [a / b] on integers raises when the quotient, rounded to a double, is
    not finite. *)
Definition true_div_overflows (a b : Z) : bool :=
  (2 ^ 1024 - 2 ^ 970) * Z.abs b <=? Z.abs a.

(** ** The script *)

(** *** [search_wikimedia] *)

Definition search_wikimedia (w : World) (search_term : string)
  : M (list SearchResult) :=
  try_except
    (response <- requests_get_api w search_term ;;
     (if api_status_ok response then ret tt else raise HTTPError) ;;;
     data <- match api_json response with
             | Some d => ret d
             | None => raise JSONDecodeError
             end ;;
     match query data with
     | None => ret []                                (* 'query' not in data *)
     | Some q =>
         match default [] (pages q) with
         | [] => ret []                              (* not pages *)
         | ps => ret (snd <$> ps)                    (* list(pages.values()) *)
         end
     end)
    (fun _ => ret []).

(** *** [download_file] *)

(** [int(response.headers.get('content-length', 0))] *)
Definition read_total_size (w : World) (response : HttpResponse) : M Z :=
  match content_length response with
  | None => ret 0
  | Some h => match PyStr.int (int_max_str_digits w) h with
              | Some n => ret n
              | None => raise ValueError
              end
  end.

(** [print(f"File size: {total_size/1024/1024:.1f} MB")] *)
Definition print_file_size (total_size : Z) : M unit :=
  if true_div_overflows total_size 1024 then raise OverflowError else ret tt.

(** The body of [for chunk in response.iter_content(...)], over the chunks
    that arrive: empty chunks are not written. *)
Fixpoint write_chunks (w : World) (filepath : Path) (chunks : list (list byte))
  : M unit :=
  match chunks with
  | [] => ret tt
  | chunk :: rest =>
      match chunk with
      | [] => ret tt
      | _ => fwrite w filepath chunk
      end ;;;
      write_chunks w filepath rest
  end.

Definition download_file (w : World) (url : string) (filepath : Path)
  : M bool :=
  try_except
    (response <- requests_get w url ;;
     (if status_ok response then ret tt else raise HTTPError) ;;;
     total_size <- read_total_size w response ;;
     print_file_size total_size ;;;
     open_w w filepath ;;;
     write_chunks w filepath (body response) ;;;
     (if complete response then ret tt else raise ConnectionError) ;;;
     ret true)
    (fun _ =>
       there <- os_path_exists filepath ;;
       (if there then os_remove filepath else ret tt) ;;;
       ret false).

(** *** [process_images] *)

Record DownloadRecord : Type := mkDownloadRecord {
  filename : string;
  url : string;
  size : string
}.

(** How the [try] block of the loop body ends when it does not raise:
    it reaches the end of the block ([Next], with the list of records as it
    is then), or it leaves through [continue]. *)
Inductive Flow : Type :=
| Next (downloaded : list DownloadRecord)
| Continue.

(** [l[0]] *)
Definition first {A} (l : list A) : M A :=
  match l with
  | x :: _ => ret x
  | [] => raise IndexError
  end.

(** The truth value of the dictionary: it has a key. *)
Definition truthy (i : ImageInfo) : bool :=
  bool_decide (is_Some (ii_url i)) || bool_decide (is_Some (ii_mime i))
  || bool_decide (is_Some (ii_size i)).

Definition empty_info : ImageInfo := mkImageInfo None None None.

Definition clean_title (result : SearchResult) : string :=
  PyStr.replace "File:" "" (default "" (title result)).

Definition safe_filename (t : string) : string := PyStr.replace " " "_" t.

(** The [try] block of the loop body. *)
Definition try_candidate (w : World) (download_dir : Path)
    (result : SearchResult) (downloaded : list DownloadRecord) : M Flow :=
  let title := clean_title result in
  if bool_decide (title = "") then ret Continue else
  image_info <- first (default [empty_info] (imageinfo result)) ;;
  match negb (truthy image_info), ii_url image_info with
  | true, _ | _, None => ret Continue
  | false, Some url =>
      let safe_filename := safe_filename title in
      let filepath := download_dir // safe_filename in
      ok <- download_file w url filepath ;;
      if ok
      then
        file_size <- os_path_getsize filepath ;;
        if file_size =? 0
        then os_remove filepath ;;; ret Continue
        else ret (Next (downloaded ++
                        [mkDownloadRecord safe_filename url
                                          (format_mb file_size)]))
      else ret (Next downloaded)
  end.

(** One iteration of the loop below the cap test: the [try] block, the
    handler, which continues, and the sleep at the end of the body, which
    [continue] skips. *)
Definition loop_body (w : World) (download_dir : Path)
    (result : SearchResult) (downloaded : list DownloadRecord)
  : M (list DownloadRecord) :=
  flow <- try_except (try_candidate w download_dir result downloaded)
                     (fun _ => ret Continue) ;;
  match flow with
  | Continue => ret downloaded
  | Next downloaded' => time_sleep 1 ;;; ret downloaded'
  end.

(** [for result in results: if len(downloaded) >= max_images: break ...] *)
Fixpoint download_loop (w : World) (download_dir : Path) (max_images : Z)
    (results : list SearchResult) (downloaded : list DownloadRecord)
  : M (list DownloadRecord) :=
  match results with
  | [] => ret downloaded
  | result :: rest =>
      if Z.of_nat (length downloaded) >=? max_images
      then ret downloaded
      else
        downloaded' <- loop_body w download_dir result downloaded ;;
        download_loop w download_dir max_images rest downloaded'
  end.

Definition bytes_of (s : string) : list byte := list_byte_of_string s.

Definition nl : string := "
".

Definition report_heading : string :=
  "# Downloaded Images Report" +:+ nl +:+ nl.

(** The three [f.write] calls for one record. *)
Definition write_record (w : World) (report_path : Path) (info : DownloadRecord)
  : M unit :=
  fwrite w report_path (bytes_of ("## " +:+ filename info +:+ nl)) ;;;
  fwrite w report_path (bytes_of ("- Source: " +:+ url info +:+ nl)) ;;;
  fwrite w report_path (bytes_of ("- Size: " +:+ size info +:+ nl +:+ nl)).

Fixpoint write_records (w : World) (report_path : Path)
    (downloaded : list DownloadRecord) : M unit :=
  match downloaded with
  | [] => ret tt
  | info :: rest =>
      write_record w report_path info ;;; write_records w report_path rest
  end.

Definition write_report (w : World) (report_path : Path)
    (downloaded : list DownloadRecord) : M unit :=
  open_w w report_path ;;;
  fwrite w report_path (bytes_of report_heading) ;;;
  write_records w report_path downloaded.

Definition download_dir_of (w : World) (search_term : string) : Path :=
  cwd w // "downloads" // PyStr.replace " " "_" search_term.

Definition process_images (w : World) (search_term : string) (max_images : Z)
  : M Z :=
  let download_dir := download_dir_of w search_term in
  mkdir download_dir ;;;
  results <- search_wikimedia w search_term ;;
  match results with
  | [] => ret 0
  | _ =>
      downloaded <- download_loop w download_dir max_images results [] ;;
      match downloaded with
      | [] => ret tt
      | _ => write_report w (download_dir // "download_report.md") downloaded
      end ;;;
      ret (Z.of_nat (length downloaded))
  end.

(** *** [main] *)

(** The [try] block around the second prompt. *)
Definition read_max_images (w : World) (line : string) : Z :=
  match PyStr.int (int_max_str_digits w) line with
  | Some max_images => Z.min (Z.max 1 max_images) 500
  | None => 10
  end.

(** [stdin] holds the lines the user types, without their newlines. *)
Definition main (w : World) (stdin : list string) : M unit :=
  match stdin with
  | [] => raise EOFError
  | line1 :: stdin' =>
      let search_term := PyStr.strip line1 in
      if bool_decide (search_term = "") then ret tt else
      match stdin' with
      | [] => raise EOFError
      | line2 :: _ =>
          let max_images := read_max_images w line2 in
          count <- process_images w search_term max_images ;;
          ret tt
      end
  end.

(** ** The specification's vocabulary

    Definitions that follow the words of the specification, to compare the
    script with. *)

Fixpoint map_chars (f : ascii -> ascii) (s : string) : string :=
  match s with
  | EmptyString => EmptyString
  | String c s' => String (f c) (map_chars f s')
  end.

(** "Spaces replaced with underscores": character by character. *)
Definition spaces_to_underscores (s : string) : string :=
  map_chars (fun c => if Ascii.eqb c " " then "_"%char else c) s.

Fixpoint drop_chars (n : nat) (s : string) : string :=
  match n, s with
  | S k, String _ s' => drop_chars k s'
  | _, _ => s
  end.

(** "With any [File:] prefix stripped": a leading [File:] is removed. *)
Definition strip_file_prefix (s : string) : string :=
  if String.prefix "File:" s then drop_chars 5 s else s.

(** The safe filename as the specification words it. *)
Definition spec_safe_filename (title : string) : string :=
  spaces_to_underscores (strip_file_prefix title).

(** A search term that is one path component: not empty, no slash. *)
Definition component_term (t : string) : Prop :=
  t <> "" /\ PyStr.has_char "/" t = false.

(** A component term without underscores. *)
Definition plain_term (t : string) : Prop :=
  component_term t /\ PyStr.has_char "_" t = false.

(** The bytes a download started at moment [t] receives in full. *)
Definition received (w : World) (t : nat) (url : string) : list byte :=
  match http w t url with
  | Some response => concat (body response)
  | None => []
  end.

(** A download started at moment [t] goes through: the server answers
    with a good status and a readable length, the file can be opened, the
    stream arrives in full and fits on the disk. *)
Definition download_succeeds (w : World) (t : nat) (url : string)
    (filepath : Path) : bool :=
  match http w t url with
  | None => false
  | Some response =>
      status_ok response
      && match content_length response with
         | None => true
         | Some h =>
             match PyStr.int (int_max_str_digits w) h with
             | Some n => negb (true_div_overflows n 1024)
             | None => false
             end
         end
      && writable w filepath
      && within_limit w (length (concat (body response)))
      && complete response
  end.

(** The results the search issued at moment [t] returns. *)
Definition search_results (w : World) (t : nat) (term : string)
  : list SearchResult :=
  match api w t term with
  | Some response =>
      if api_status_ok response
      then match api_json response with
           | Some data =>
               match query data with
               | Some q => snd <$> default [] (pages q)
               | None => []
               end
           | None => []
           end
      else []
  | None => []
  end.

(** The url and the destination of a candidate that reaches the
    downloader; [None] for a candidate that is skipped or raises first. *)
Definition candidate_download (download_dir : Path) (result : SearchResult)
  : option (string * Path) :=
  if bool_decide (clean_title result = "") then None else
  match default [empty_info] (imageinfo result) with
  | [] => None
  | image_info :: _ =>
      match ii_url image_info with
      | Some url =>
          Some (url, download_dir // safe_filename (clean_title result))
      | None => None
      end
  end.

(** The terminal states of the per-candidate state machine,
    [Pending -> {Skipped | Downloading -> {Failed | Saved ->
    {Empty-Discarded | Recorded}}}], and [Errored] for a candidate whose
    processing raises. *)
Inductive CandidateState : Type :=
| Skipped
| Errored
| Failed
| EmptyDiscarded
| Recorded (r : DownloadRecord).

(** The terminal state of a candidate processed at moment [t]. *)
Definition candidate_state (w : World) (download_dir : Path) (t : nat)
    (result : SearchResult) : CandidateState :=
  if bool_decide (clean_title result = "") then Skipped else
  match default [empty_info] (imageinfo result) with
  | [] => Errored
  | image_info :: _ =>
      match ii_url image_info with
      | None => Skipped
      | Some url =>
          let name := safe_filename (clean_title result) in
          if download_succeeds w t url (download_dir // name)
          then match received w t url with
               | [] => EmptyDiscarded
               | c => Recorded (mkDownloadRecord name url
                                  (format_mb (Z.of_nat (length c))))
               end
          else Failed
      end
  end.

(** A sleep follows the candidate. *)
Definition sleeps_after (s : CandidateState) : bool :=
  match s with
  | Failed | Recorded _ => true
  | Skipped | Errored | EmptyDiscarded => false
  end.



(** [process_images] up to the end of its loop: the records collected. *)
Definition collect (w : World) (search_term : string) (max_images : Z)
  : M (list DownloadRecord) :=
  let download_dir := download_dir_of w search_term in
  mkdir download_dir ;;;
  results <- search_wikimedia w search_term ;;
  match results with
  | [] => ret []
  | _ => download_loop w download_dir max_images results []
  end.

(** The report for a sequence of records, as the specification describes
    it: the heading, then one section per record, in order. *)
Definition report_section (info : DownloadRecord) : string :=
  "## " +:+ filename info +:+ nl +:+
  "- Source: " +:+ url info +:+ nl +:+
  "- Size: " +:+ size info +:+ nl +:+ nl.

Fixpoint report_sections (downloaded : list DownloadRecord) : string :=
  match downloaded with
  | [] => ""
  | info :: rest => report_section info +:+ report_sections rest
  end.

Definition report_text (downloaded : list DownloadRecord) : string :=
  report_heading +:+ report_sections downloaded.

Definition report_path_of (w : World) (search_term : string) : Path :=
  download_dir_of w search_term // "download_report.md".

(** The byte strings the report's loop passes to [f.write] for a record. *)
Definition record_chunks (info : DownloadRecord) : list (list byte) :=
  [ bytes_of ("## " +:+ filename info +:+ nl);
    bytes_of ("- Source: " +:+ url info +:+ nl);
    bytes_of ("- Size: " +:+ size info +:+ nl +:+ nl) ].


(** A search that meets a transport error or a malformed response. *)
Inductive SearchFailure (w : World) (t : nat) (term : string) : Prop :=
| SearchUnreachable :
    api w t term = None -> SearchFailure w t term
| SearchBadStatus (response : ApiResponse) :
    api w t term = Some response -> api_status_ok response = false ->
    SearchFailure w t term
| SearchNotJson (response : ApiResponse) :
    api w t term = Some response -> api_json response = None ->
    SearchFailure w t term
| SearchNoQuery (response : ApiResponse) (data : ApiData) :
    api w t term = Some response -> api_json response = Some data ->
    query data = None ->
    SearchFailure w t term
| SearchNoPages (response : ApiResponse) (data : ApiData) (q : QueryData) :
    api w t term = Some response -> api_json response = Some data ->
    query data = Some q -> pages q = None ->
    SearchFailure w t term.

(** ** Concrete runs *)

Definition ex_home : Path := mkPath "/" ["home"; "user"].

Definition ex_state : State := mkState ∅ [].

(** Four candidates: one without a title, and three whose titles differ
    in the [File:] prefix and in a space against an underscore. *)
Definition ex_untitled : SearchResult :=
  mkSearchResult None (Some [mkImageInfo (Some "https://up/u0") None None]).

Definition ex_spaced : SearchResult :=
  mkSearchResult (Some "File:a b")
                 (Some [mkImageInfo (Some "https://up/u1") None None]).

Definition ex_underscored : SearchResult :=
  mkSearchResult (Some "File:a_b")
                 (Some [mkImageInfo (Some "https://up/u2") None None]).

Definition ex_bare : SearchResult :=
  mkSearchResult (Some "a b")
                 (Some [mkImageInfo (Some "https://up/u3") None None]).

Definition ex_api (t : nat) (term : string) : option ApiResponse :=
  Some (mkApiResponse true (Some (mkApiData (Some (mkQueryData (Some
    [("10", ex_untitled); ("11", ex_spaced); ("12", ex_underscored);
     ("13", ex_bare)])))))).

Definition ex_http (t : nat) (url : string) : option HttpResponse :=
  if bool_decide (url = "https://up/u1")
  then Some (mkHttpResponse true (Some "2") [["a"%byte; "b"%byte]] true)
  else if bool_decide (url = "https://up/u2")
  then Some (mkHttpResponse true None
                            [["x"%byte]; []; ["y"%byte; "z"%byte]] true)
  else Some (mkHttpResponse true (Some "1") [["w"%byte]] true).

Definition ex_world : World :=
  mkWorld ex_home ex_api ex_http (fun _ => true) None (Some 4300%nat).



Definition ex_target : Path := download_dir_of ex_world "cats" // "a_b".

(** A state in which an earlier run left a file at [ex_target]. *)
Definition ex_state_old_file : State :=
  mkState {[ ex_target := ["o"%byte; "l"%byte; "d"%byte] ]} [].

(** The records of the run over [ex_world]. *)
Definition ex_records : list DownloadRecord :=
  [ mkDownloadRecord "a_b" "https://up/u1" "0.0 MB";
    mkDownloadRecord "a_b" "https://up/u2" "0.0 MB";
    mkDownloadRecord "a_b" "https://up/u3" "0.0 MB" ].

(** A world in which every download arrives in full and is empty. *)
Definition ex_world_empty_files : World :=
  mkWorld ex_home ex_api
          (fun _ _ => Some (mkHttpResponse true (Some "0") [[]] true))
          (fun _ => true) None (Some 4300%nat).

(** A world in which the API cannot be reached. *)
Definition ex_world_offline : World :=
  mkWorld ex_home (fun _ _ => None) ex_http (fun _ => true) None
          (Some 4300%nat).

(** ** [get_file_info] *)

Definition api_url : string := "https://commons.wikimedia.org/w/api.php".

(** [requests.get(api_url, params=params)] for the metadata of one file.
    The reply of the environment, [info_api], depends on the moment and
    on the [titles] parameter; the request is recorded as a GET of the
    API's address. *)
Definition requests_get_info
    (info_api : nat -> string -> option ApiResponse) (titles : string)
  : M ApiResponse :=
  fun st =>
    let st' := mkState (fs st) (EvGet api_url :: log st) in
    match info_api (length (log st)) titles with
    | Some response => (st', Ok response)
    | None => (st', Raise ConnectionError)
    end.

(** The result is the dictionary found, or [None]. *)
Definition get_file_info
    (info_api : nat -> string -> option ApiResponse) (filename : string)
  : M (option ImageInfo) :=
  try_except
    (response <- requests_get_info info_api ("File:" +:+ filename) ;;
     data <- match api_json response with
             | Some d => ret d
             | None => raise JSONDecodeError
             end ;;
     (* data.get('query', {}).get('pages', {}) *)
     let pages := match query data with
                  | Some q => default [] (pages q)
                  | None => []
                  end in
     match pages with
     | [] => ret None
     | (_, page) :: _ =>                      (* next(iter(pages.values())) *)
         match imageinfo page with
         | Some infos => info <- first infos ;; ret (Some info)
         | None => ret None
         end
     end)
    (fun _ => ret None).

(** ** Vocabulary for the properties of the code *)



(** The name and the url a candidate is downloaded under, when it reaches
    the downloader. *)
Definition candidate_entry (result : SearchResult) : option (string * string) :=
  if bool_decide (clean_title result = "") then None else
  match default [empty_info] (imageinfo result) with
  | [] => None
  | image_info :: _ =>
      match ii_url image_info with
      | Some url => Some (safe_filename (clean_title result), url)
      | None => None
      end
  end.

Definition record_entry (r : DownloadRecord) : string * string :=
  (filename r, url r).

(** Text without a line break. *)
Definition one_line (s : string) : Prop := PyStr.has_char "010" s = false.

Definition one_line_record (r : DownloadRecord) : Prop :=
  one_line (filename r) /\ one_line (url r) /\ one_line (size r).




(** ** More concrete runs *)

(** The API answers with an error status and a body that describes one
    file. *)
Definition ex_info_reply : ApiResponse :=
  mkApiResponse false
    (Some (mkApiData (Some (mkQueryData (Some
       [("42", mkSearchResult (Some "File:a b.jpg")
                 (Some [mkImageInfo (Some "https://up/u1") (Some "image/jpeg")
                                    (Some 2)]));
        ("43", ex_underscored)]))))).

Definition ex_info_api (t : nat) (titles : string) : option ApiResponse :=
  Some ex_info_reply.

(** Two candidates for the same file name; the server answers the first
    url only. *)
Definition ex_world_second_fails : World :=
  mkWorld ex_home
    (fun _ _ => Some (mkApiResponse true (Some (mkApiData (Some (mkQueryData
       (Some [("11", ex_spaced); ("12", ex_underscored)])))))))
    (fun _ url => if bool_decide (url = "https://up/u1")
                  then Some (mkHttpResponse true (Some "2")
                                            [["a"%byte; "b"%byte]] true)
                  else None)
    (fun _ => true) None (Some 4300%nat).

(** A candidate whose title is an absolute path. *)
Definition ex_absolute : SearchResult :=
  mkSearchResult (Some "File:/tmp/x y")
                 (Some [mkImageInfo (Some "https://up/u1") None None]).




(** The search oracle answers every request with [ex_info_reply]. *)
Definition ex_world_bad_status : World :=
  mkWorld ex_home ex_info_api ex_http (fun _ => true) None (Some 4300%nat).

(** The server declares a length the body does not have. *)
Definition ex_world_wrong_length : World :=
  mkWorld ex_home ex_api
          (fun _ _ => Some (mkHttpResponse true (Some "-5")
                                           [["a"%byte; "b"%byte]] true))
          (fun _ => true) None (Some 4300%nat).

(** The search returns [ex_absolute] only. *)
Definition ex_world_absolute : World :=
  mkWorld ex_home
    (fun _ _ => Some (mkApiResponse true (Some (mkApiData (Some (mkQueryData
       (Some [("14", ex_absolute)])))))))
    ex_http (fun _ => true) None (Some 4300%nat).

(** The state of a run over [ex_world_second_fails] after its first
    candidate, and the record collected then. *)
Definition ex_state_after_first : State :=
  mkState {[ ex_target := ["a"%byte; "b"%byte] ]}
          [EvSleep 1; EvGet "https://up/u1"; EvSearch "cats";
           EvMkdir (download_dir_of ex_world "cats")].

Definition ex_first_record : DownloadRecord :=
  mkDownloadRecord "a_b" "https://up/u1" "0.0 MB".
(** ** Strings and paths: lemmas *)

Section StringLemmas.

Lemma prefix_char (a c : ascii) (s : string) :
  String.prefix (String a EmptyString) (String c s) = Ascii.eqb c a.
Proof.
  simpl. destruct (ascii_dec a c) as [->|Hne].
  - rewrite Ascii.eqb_refl. by destruct s.
  - symmetry. apply Ascii.eqb_neq. congruence.
Qed.

Lemma replace_space (s : string) :
  PyStr.replace " " "_" s = spaces_to_underscores s.
Proof.
  unfold PyStr.replace, spaces_to_underscores.
  induction s as [|c s IH]; [done|].
  cbn [PyStr.replace_go map_chars]. rewrite prefix_char.
  destruct (Ascii.eqb c " ") eqn:Hc.
  - cbn [String.length Nat.sub]. destruct s; cbn in *; by rewrite ?IH.
  - by rewrite IH.
Qed.

Lemma has_char_spaces_to_underscores (c : ascii) (s : string) :
  c <> "_"%char -> c <> " "%char ->
  PyStr.has_char c (spaces_to_underscores s) = PyStr.has_char c s.
Proof.
  intros Hu Hs. unfold spaces_to_underscores.
  induction s as [|d s IH]; [done|]. cbn. rewrite IH. f_equal.
  destruct (Ascii.eqb d " ") eqn:Hd; [|done].
  apply Ascii.eqb_eq in Hd as ->.
  transitivity false; [|symmetry]; apply Ascii.eqb_neq; congruence.
Qed.

Lemma spaces_to_underscores_nil (s : string) :
  spaces_to_underscores s = "" -> s = "".
Proof. by destruct s. Qed.

Lemma spaces_to_underscores_inj (s1 s2 : string) :
  PyStr.has_char "_" s1 = false -> PyStr.has_char "_" s2 = false ->
  spaces_to_underscores s1 = spaces_to_underscores s2 -> s1 = s2.
Proof.
  unfold spaces_to_underscores.
  revert s2. induction s1 as [|a s1 IH]; intros [|b s2]; cbn; try done.
  intros [Ha H1]%orb_false_elim [Hb H2]%orb_false_elim [= Hab Heq].
  f_equal; [|by apply IH].
  apply Ascii.eqb_neq in Ha, Hb.
  destruct (Ascii.eqb a " ") eqn:Ea, (Ascii.eqb b " ") eqn:Eb;
    try apply Ascii.eqb_eq in Ea; try apply Ascii.eqb_eq in Eb;
    congruence.
Qed.

Lemma split_no_sep (sep : ascii) (s : string) :
  PyStr.has_char sep s = false -> PyStr.split sep s = [s].
Proof.
  induction s as [|c s IH]; [done|]. cbn.
  intros [Hc Hs]%orb_false_elim. rewrite Hc, (IH Hs). done.
Qed.

Lemma root_of_no_slash (s : string) :
  PyStr.has_char "/" s = false -> PyPath.root_of s = "".
Proof.
  destruct s as [|c s]; [done|]. cbn [PyStr.has_char].
  intros [Hc _]%orb_false_elim. apply Ascii.eqb_neq in Hc.
  unfold PyPath.root_of.
  destruct c as [[] [] [] [] [] [] [] []]; try done.
Qed.

Lemma joinpath_no_slash (p : Path) (s : string) :
  PyStr.has_char "/" s = false ->
  p // s = mkPath (root p)
             (parts p ++ if decide (s <> "" /\ s <> ".") then [s] else []).
Proof.
  intros Hs. unfold PyPath.joinpath, PyPath.components.
  rewrite (root_of_no_slash _ Hs), (split_no_sep _ _ Hs).
  cbn [filter list_filter]. by case_decide.
Qed.

(** Text in which [old] does not occur is left as it is. *)
Lemma replace_go_absent (old new s : string) :
  PyStr.occurs old s = false -> PyStr.replace_go old new 0 s = s.
Proof.
  induction s as [|c s IH]; [done|]. cbn [PyStr.occurs PyStr.replace_go].
  intros [Hp Ho]%orb_false_elim. rewrite Hp, (IH Ho). done.
Qed.

Lemma prefix_drop (p s : string) :
  String.prefix p s = true -> s = p +:+ drop_chars (String.length p) s.
Proof.
  revert s. induction p as [|a p IH]; intros [|b s]; try done.
  cbn [String.prefix]. destruct (ascii_dec a b) as [->|]; [|done].
  intros H. cbv [String.append]. fold String.append.
  cbn [String.length drop_chars]. f_equal. by apply IH.
Qed.

(** A leading [File:] is removed, and the rest is scanned. *)
Lemma replace_file_prefix (new t : string) :
  PyStr.replace_go "File:" new 0 ("File:" +:+ t)
    = new +:+ PyStr.replace_go "File:" new 0 t.
Proof. cbv [String.append]. fold String.append. by destruct t. Qed.

End StringLemmas.

(** ** The monad and the system calls: lemmas *)

Section Effects.

Context (w : World).

Lemma state_eta (st : State) : mkState (fs st) (log st) = st.
Proof. by destruct st. Qed.

Lemma bind_ret {A B} (a : A) (k : A -> M B) (st : State) :
  bind (ret a) k st = k a st.
Proof. done. Qed.

Lemma try_bind {A B} (m : M A) (k : A -> M B) (h : exn -> M B) (st : State) :
  try_except (bind m k) h st =
    match m st with
    | (st', Ok a) => try_except (k a) h st'
    | (st', Raise e) => h e st'
    end.
Proof. unfold try_except, bind. by destruct (m st) as [st' [a|e]]. Qed.

Lemma try_bind_ret {A B} (a : A) (k : A -> M B) (h : exn -> M B) (st : State) :
  try_except (bind (ret a) k) h st = try_except (k a) h st.
Proof. done. Qed.

Lemma try_bind_raise {A B} (e : exn) (k : A -> M B) (h : exn -> M B)
    (st : State) :
  try_except (bind (raise e) k) h st = h e st.
Proof. done. Qed.

Lemma within_limit_mono (n m : nat) :
  (n <= m)%nat -> within_limit w m = true -> within_limit w n = true.
Proof.
  unfold within_limit. destruct (fsize_limit w); [|done].
  intros ? ?%Nat.leb_le. apply Nat.leb_le. lia.
Qed.

Lemma within_limit_0 : within_limit w 0 = true.
Proof. unfold within_limit. by destruct (fsize_limit w). Qed.

(** Writing to the file at [p], which holds [c]. *)
Lemma fwrite_spec (p : Path) (c data : list byte) (st : State) :
  fs st !! p = Some c ->
  fwrite w p data st =
    if within_limit w (length (c ++ data))
    then (mkState (<[p := c ++ data]> (fs st)) (log st), Ok tt)
    else (st, Raise OSError).
Proof. intros Hc. unfold fwrite. by rewrite Hc. Qed.

(** The chunks of a stream, written behind the content [c] of the file:
    either all of them fit, or the write that does not raises and leaves
    a file at [p]. *)
Lemma write_chunks_spec (p : Path) (chunks : list (list byte)) :
  forall (st : State) (c : list byte),
    fs st !! p = Some c ->
    within_limit w (length c) = true ->
    if within_limit w (length (c ++ concat chunks))
    then write_chunks w p chunks st =
           (mkState (<[p := c ++ concat chunks]> (fs st)) (log st), Ok tt)
    else exists c',
           write_chunks w p chunks st =
             (mkState (<[p := c']> (fs st)) (log st), Raise OSError).
Proof.
  induction chunks as [|chunk rest IH]; intros st c Hc Hfit.
  - cbn [concat write_chunks]. rewrite app_nil_r, Hfit.
    unfold ret. by rewrite insert_id, state_eta.
  - cbn [concat write_chunks]. destruct chunk as [|b chunk].
    + rewrite bind_ret. cbn [app]. by apply IH.
    + set (c1 := c ++ b :: chunk).
      assert (Hstep :
        (fwrite w p (b :: chunk) ;;; write_chunks w p rest) st =
          if within_limit w (length c1)
          then write_chunks w p rest (mkState (<[p := c1]> (fs st)) (log st))
          else (st, Raise OSError)).
      { unfold bind. rewrite (fwrite_spec p c (b :: chunk) st Hc).
        fold c1. by destruct (within_limit w (length c1)). }
      rewrite Hstep. clear Hstep.
      destruct (within_limit w (length c1)) eqn:Hc1.
      * specialize (IH (mkState (<[p := c1]> (fs st)) (log st)) c1).
        cbn [fs log] in IH. rewrite lookup_insert_eq in IH.
        specialize (IH eq_refl Hc1). subst c1.
        rewrite <- app_assoc in IH. rewrite insert_insert_eq in IH.
        destruct (within_limit w (length (c ++ _ ++ _))); [done|].
        destruct IH as [c' IH]. exists c'.
        by rewrite IH, insert_insert_eq.
      * destruct (within_limit w (length (c ++ _))) eqn:Hall.
        { apply (within_limit_mono (length c1)) in Hall; [congruence|].
          subst c1. rewrite !length_app. lia. }
        exists c. by rewrite insert_id, state_eta.
Qed.

(** [download_file] as a function of the environment: it never raises;
    it returns whether the download went through; the file then holds
    the bytes received, and otherwise there is no file at [filepath]. *)
Lemma download_file_spec (url : string) (filepath : Path) (st : State) :
  let t := length (log st) in
  download_file w url filepath st =
    (mkState (if download_succeeds w t url filepath
              then <[filepath := received w t url]> (fs st)
              else delete filepath (fs st))
             (EvGet url :: log st),
     Ok (download_succeeds w t url filepath)).
Proof.
  intros t.
  assert (Hbefore :
    (there <- os_path_exists filepath ;;
     (if there then os_remove filepath else ret tt) ;;; ret false)
      (mkState (fs st) (EvGet url :: log st)) =
    (mkState (delete filepath (fs st)) (EvGet url :: log st), Ok false)).
  { unfold bind, os_path_exists, os_remove, ret. cbn [fs log].
    destruct (fs st !! filepath) as [c|] eqn:Hc.
    - rewrite bool_decide_eq_true_2 by eauto. cbn [fs log]. by rewrite Hc.
    - rewrite bool_decide_eq_false_2 by (by intros [? ?]).
      cbn [fs log]. by rewrite delete_id. }
  assert (Hafter : forall (c : list byte),
    (there <- os_path_exists filepath ;;
     (if there then os_remove filepath else ret tt) ;;; ret false)
      (mkState (<[filepath := c]> (fs st)) (EvGet url :: log st)) =
    (mkState (delete filepath (fs st)) (EvGet url :: log st), Ok false)).
  { intros c. unfold bind, os_path_exists, os_remove, ret. cbn [fs log].
    rewrite lookup_insert_eq.
    rewrite bool_decide_eq_true_2 by eauto. cbn [fs log].
    by rewrite lookup_insert_eq, delete_insert_eq. }
  unfold download_file, download_succeeds, received.
  set (h := fun _ : exn => _) in *.
  rewrite try_bind. unfold requests_get. fold t.
  destruct (http w t url) as [response|]; [|by apply Hbefore].
  destruct (status_ok response);
    [rewrite try_bind_ret | by rewrite try_bind_raise; apply Hbefore].
  rewrite try_bind. unfold read_total_size.
  assert (Hrest : forall n : Z,
    try_except
      (print_file_size n ;;; open_w w filepath ;;;
       write_chunks w filepath (body response) ;;;
       (if complete response then ret tt else raise ConnectionError) ;;;
       ret true) h (mkState (fs st) (EvGet url :: log st)) =
    (mkState
       (if negb (true_div_overflows n 1024) && writable w filepath
           && within_limit w (length (concat (body response)))
           && complete response
        then <[filepath := concat (body response)]> (fs st)
        else delete filepath (fs st))
       (EvGet url :: log st),
     Ok (negb (true_div_overflows n 1024) && writable w filepath
         && within_limit w (length (concat (body response)))
         && complete response))).
  { intros n. unfold print_file_size.
    destruct (true_div_overflows n 1024);
      [by rewrite try_bind_raise; apply Hbefore | rewrite try_bind_ret].
    rewrite try_bind. unfold open_w.
    destruct (writable w filepath); [|by apply Hbefore].
    cbn [fs log negb andb]. rewrite try_bind.
    pose proof (write_chunks_spec filepath (body response)
      (mkState (<[filepath := []]> (fs st)) (EvGet url :: log st)) []) as Hw.
    cbn [fs log app length] in Hw. rewrite lookup_insert_eq in Hw.
    specialize (Hw eq_refl within_limit_0).
    destruct (within_limit w _).
    - rewrite Hw, insert_insert_eq. destruct (complete response).
      + by rewrite try_bind_ret.
      + rewrite try_bind_raise. apply Hafter.
    - destruct Hw as [c' ->]. rewrite insert_insert_eq. apply Hafter. }
  destruct (content_length response) as [hd|].
  - destruct (PyStr.int _ hd) as [n|]; [|by apply Hbefore].
    cbn [andb]. unfold ret at 1. by rewrite Hrest.
  - unfold ret at 1. by rewrite (Hrest 0).
Qed.

End Effects.

(** ** The loop: lemmas *)

Section Loop.

Context (w : World) (download_dir : Path).

Lemma url_is_truthy (i : ImageInfo) (u : string) :
  ii_url i = Some u -> negb (truthy i) = false.
Proof. intros H. unfold truthy. rewrite H. done. Qed.

(** One iteration, by the terminal state of its candidate. *)
Lemma loop_body_spec (result : SearchResult)
    (downloaded : list DownloadRecord) (st : State) :
  let t := length (log st) in
  loop_body w download_dir result downloaded st =
    match candidate_state w download_dir t result,
          candidate_download download_dir result with
    | Recorded r, Some (url, p) =>
        (mkState (<[p := received w t url]> (fs st))
                 (EvSleep 1 :: EvGet url :: log st),
         Ok (downloaded ++ [r]))
    | Failed, Some (url, p) =>
        (mkState (delete p (fs st)) (EvSleep 1 :: EvGet url :: log st),
         Ok downloaded)
    | EmptyDiscarded, Some (url, p) =>
        (mkState (delete p (fs st)) (EvGet url :: log st), Ok downloaded)
    | _, _ => (st, Ok downloaded)
    end.
Proof.
  intros t.
  unfold loop_body, try_candidate, candidate_state, candidate_download.
  destruct (bool_decide (clean_title result = "")); [done|].
  destruct (default [empty_info] (imageinfo result)) as [|image_info ?];
    [done|].
  unfold first. cbv iota. unfold bind at 1. rewrite try_bind_ret.
  destruct (ii_url image_info) as [u|] eqn:Hu.
  2:{ by destruct (negb (truthy image_info)). }
  rewrite (url_is_truthy _ _ Hu). cbv iota.
  set (p := download_dir // safe_filename (clean_title result)).
  rewrite try_bind, download_file_spec. fold t.
  destruct (download_succeeds w t u p); [|done].
  rewrite try_bind. unfold os_path_getsize. cbn [fs log].
  rewrite lookup_insert_eq.
  destruct (received w t u) as [|b c] eqn:Hrec.
  - cbn [length]. change (Z.of_nat 0 =? 0) with true. cbv iota.
    rewrite try_bind. unfold os_remove.
    cbn [fs log]. rewrite lookup_insert_eq, delete_insert_eq. done.
  - replace (Z.of_nat (length (b :: c)) =? 0) with false; [done|].
    symmetry. apply Z.eqb_neq. cbn [length]. lia.
Qed.

(** An iteration does not raise, and adds at most the record of a
    candidate that ends [Recorded]. *)
Lemma loop_body_cases (result : SearchResult)
    (downloaded : list DownloadRecord) (st : State) :
  exists st' downloaded',
    loop_body w download_dir result downloaded st = (st', Ok downloaded')
    /\ (downloaded' = downloaded
        \/ exists r,
             candidate_state w download_dir (length (log st)) result
               = Recorded r
             /\ downloaded' = downloaded ++ [r]).
Proof.
  rewrite loop_body_spec.
  destruct (candidate_state _ _ _ _) as [| | | |r] eqn:Hs;
    try destruct (candidate_download download_dir result) as [[u p]|];
    eauto 8.
Qed.

(** With the cap reached, the loop is over whatever candidates remain. *)
Lemma download_loop_full (max_images : Z) (results : list SearchResult)
    (downloaded : list DownloadRecord) (st : State) :
  max_images <= Z.of_nat (length downloaded) ->
  download_loop w download_dir max_images results downloaded st
    = (st, Ok downloaded).
Proof.
  intros Hfull. destruct results as [|result rest]; [done|].
  cbn [download_loop].
  by replace (Z.of_nat (length downloaded) >=? max_images) with true
    by (symmetry; apply Z.geb_le; lia).
Qed.

(** Below the cap, the next candidate is processed. *)
Lemma download_loop_step (max_images : Z) (result : SearchResult)
    (rest : list SearchResult) (downloaded : list DownloadRecord)
    (st : State) :
  Z.of_nat (length downloaded) < max_images ->
  download_loop w download_dir max_images (result :: rest) downloaded st =
    (downloaded' <- loop_body w download_dir result downloaded ;;
     download_loop w download_dir max_images rest downloaded') st.
Proof.
  intros Hlt. cbn [download_loop].
  by replace (Z.of_nat (length downloaded) >=? max_images) with false
    by (symmetry; rewrite Z.geb_leb; apply Z.leb_gt; lia).
Qed.

(** The loop does not raise.  The records it adds are those of
    candidates that ended [Recorded], at most one per candidate, and the
    list does not grow past the cap. *)
Lemma download_loop_spec (max_images : Z) (results : list SearchResult) :
  forall (downloaded : list DownloadRecord) (st : State),
  exists st' added,
    download_loop w download_dir max_images results downloaded st
      = (st', Ok (downloaded ++ added))
    /\ (length added <= length results)%nat
    /\ Z.of_nat (length (downloaded ++ added))
         <= Z.max (Z.of_nat (length downloaded)) max_images
    /\ Forall (fun r => exists result t,
                 result ∈ results
                 /\ candidate_state w download_dir t result = Recorded r)
              added.
Proof.
  induction results as [|result rest IH]; intros downloaded st.
  - exists st, []. rewrite app_nil_r. cbn [length].
    repeat split; [lia|lia|done].
  - destruct (Z_lt_le_dec (Z.of_nat (length downloaded)) max_images)
      as [Hlt|Hge].
    + rewrite (download_loop_step _ _ _ _ _ Hlt). unfold bind.
      destruct (loop_body_cases result downloaded st)
        as (st1 & downloaded1 & -> & Hcase).
      destruct (IH downloaded1 st1) as (st' & added & -> & Hlen & Hcap & Hall).
      destruct Hcase as [->|(r & Hr & ->)].
      * exists st', added. repeat split; [cbn [length]; lia|lia|].
        eapply Forall_impl; [exact Hall|].
        intros r (res & t & Hin & Hst). exists res, t.
        split; [by apply list_elem_of_further|done].
      * exists st', (r :: added). rewrite <- app_assoc. cbn [app].
        rewrite <- app_assoc in Hcap. cbn [app] in Hcap.
        rewrite !length_app in Hcap. cbn [length] in Hcap.
        repeat split; [cbn [length]; lia| |].
        { rewrite length_app. cbn [length]. lia. }
        constructor.
        { exists result, (length (log st)).
          split; [apply list_elem_of_here|done]. }
        eapply Forall_impl; [exact Hall|].
        intros r' (res & t & Hin & Hst). exists res, t.
        split; [by apply list_elem_of_further|done].
    + rewrite (download_loop_full _ _ _ _ Hge).
      exists st, []. rewrite app_nil_r. cbn [length].
    repeat split; [lia|lia|done].
Qed.

End Loop.

(** ** The run: lemmas *)

Section Run.

Context (w : World).

Lemma bind_assoc {A B C} (m : M A) (f : A -> M B) (g : B -> M C) (st : State) :
  bind (bind m f) g st = bind m (fun a => bind (f a) g) st.
Proof. unfold bind. by destruct (m st) as [st' [a|e]]. Qed.

Lemma bind_congr {A B} (m : M A) (k k' : A -> M B) (st : State) :
  (forall a st', k a st' = k' a st') -> bind m k st = bind m k' st.
Proof. intros H. unfold bind. by destruct (m st) as [st' [a|e]]. Qed.

(** The search does not raise and leaves the files alone. *)
Lemma search_wikimedia_spec (term : string) (st : State) :
  search_wikimedia w term st =
    (mkState (fs st) (EvSearch term :: log st),
     Ok (search_results w (length (log st)) term)).
Proof.
  unfold search_wikimedia, search_results.
  rewrite try_bind. unfold requests_get_api.
  destruct (api w (length (log st)) term) as [response|]; [|done].
  destruct (api_status_ok response);
    [rewrite try_bind_ret | by rewrite try_bind_raise].
  destruct (api_json response) as [data|];
    [rewrite try_bind_ret | by rewrite try_bind_raise].
  destruct (query data) as [q|]; [|done].
  by destruct (default [] (pages q)).
Qed.

(** [collect] does not raise. *)
Lemma collect_spec (term : string) (max_images : Z) (st : State) :
  let st1 := mkState (fs st)
               (EvSearch term :: EvMkdir (download_dir_of w term) :: log st) in
  let results := search_results w (S (length (log st))) term in
  collect w term max_images st =
    download_loop w (download_dir_of w term) max_images results [] st1.
Proof.
  intros st1 results. unfold collect, bind, mkdir, emit.
  rewrite search_wikimedia_spec. cbn [fs log length]. fold results st1.
  by destruct results.
Qed.

(** [process_images] is [collect] followed by the report. *)
Lemma process_images_collect (term : string) (max_images : Z) (st : State) :
  process_images w term max_images st =
    (downloaded <- collect w term max_images ;;
     match downloaded with
     | [] => ret tt
     | _ => write_report w (report_path_of w term) downloaded
     end ;;;
     ret (Z.of_nat (length downloaded))) st.
Proof.
  unfold process_images, collect, report_path_of, bind, mkdir, emit.
  cbv zeta. rewrite search_wikimedia_spec. cbn [fs log].
  destruct (search_results _ _ _) as [|result rest]; [done|].
  by destruct (download_loop _ _ _ _ _ _) as [st' [[|r dl]|e]].
Qed.

End Run.

(** ** The report: lemmas *)

Section Report.

Context (w : World) (report_path : Path).

Lemma bytes_of_app (s1 s2 : string) :
  bytes_of (s1 +:+ s2) = bytes_of s1 ++ bytes_of s2.
Proof.
  unfold bytes_of, list_byte_of_string.
  induction s1 as [|c s1 IH]; [done|]. simpl. by rewrite <- IH.
Qed.

Lemma concat_record_chunks (info : DownloadRecord) :
  concat (record_chunks info) = bytes_of (report_section info).
Proof.
  unfold record_chunks, report_section. cbn [concat].
  rewrite app_nil_r. by rewrite !bytes_of_app, <- !app_assoc.
Qed.

Lemma bytes_of_cons (c : ascii) (s : string) :
  bytes_of (String c s) = byte_of_ascii c :: bytes_of s.
Proof. done. Qed.

Lemma write_record_chunks (info : DownloadRecord) (k : M unit) (st : State) :
  (write_record w report_path info ;;; k) st =
    (write_chunks w report_path (record_chunks info) ;;; k) st.
Proof.
  unfold write_record, record_chunks. cbn [write_chunks].
  cbv [String.append]. rewrite !bytes_of_cons. cbv iota.
  unfold bind, ret.
  destruct (fwrite w report_path _ st) as [st1 [[]|e]]; [|done].
  destruct (fwrite w report_path _ st1) as [st2 [[]|e]]; [|done].
  by destruct (fwrite w report_path _ st2) as [st3 [[]|e]].
Qed.

Lemma write_chunks_app (chunks1 chunks2 : list (list byte)) (st : State) :
  write_chunks w report_path (chunks1 ++ chunks2) st =
    (write_chunks w report_path chunks1 ;;;
     write_chunks w report_path chunks2) st.
Proof.
  revert st. induction chunks1 as [|chunk rest IH]; intros st; [done|].
  cbn [app write_chunks]. rewrite bind_assoc.
  apply bind_congr. intros _ st'. apply IH.
Qed.

Lemma write_records_chunks (downloaded : list DownloadRecord) (st : State) :
  write_records w report_path downloaded st =
    write_chunks w report_path (flat_map record_chunks downloaded) st.
Proof.
  revert st. induction downloaded as [|info rest IH]; intros st; [done|].
  cbn [write_records flat_map].
  rewrite write_record_chunks, write_chunks_app.
  apply bind_congr. intros _ st'. apply IH.
Qed.

Lemma concat_flat_map_record_chunks (downloaded : list DownloadRecord) :
  concat (flat_map record_chunks downloaded)
    = bytes_of (report_sections downloaded).
Proof.
  induction downloaded as [|info rest IH]; [done|].
  cbn [flat_map report_sections].
  by rewrite concat_app, concat_record_chunks, IH, bytes_of_app.
Qed.

(** Writing the report: the file is opened, which truncates it, and
    receives the text of the report, if the disk takes it. *)
Lemma write_report_spec (downloaded : list DownloadRecord) (st : State) :
  if writable w report_path
     && within_limit w (length (bytes_of (report_text downloaded)))
  then write_report w report_path downloaded st =
         (mkState (<[report_path := bytes_of (report_text downloaded)]> (fs st))
                  (log st), Ok tt)
  else exists st', write_report w report_path downloaded st
                     = (st', Raise OSError).
Proof.
  set (st0 := mkState (<[report_path := []]> (fs st)) (log st)).
  assert (Heq : write_report w report_path downloaded st =
                if writable w report_path
                then write_chunks w report_path
                       (bytes_of report_heading
                          :: flat_map record_chunks downloaded) st0
                else (st, Raise OSError)).
  { unfold write_report. unfold bind at 1. unfold open_w.
    destruct (writable w report_path); [|done]. cbv beta iota. fold st0.
    cbn [write_chunks]. unfold report_heading. cbv [String.append].
    rewrite !bytes_of_cons. cbv iota.
    apply bind_congr. intros _ st'. apply write_records_chunks. }
  rewrite Heq. clear Heq.
  destruct (writable w report_path); [|by eexists]. cbn [andb].
  pose proof (write_chunks_spec w report_path
    (bytes_of report_heading :: flat_map record_chunks downloaded) st0 [])
    as Hw.
  assert (Hopen : fs st0 !! report_path = Some [])
    by apply lookup_insert_eq.
  specialize (Hw Hopen (within_limit_0 w)).
  cbn [concat app] in Hw.
  rewrite concat_flat_map_record_chunks, <- bytes_of_app in Hw.
  fold (report_text downloaded) in Hw.
  destruct (within_limit w _).
  - rewrite Hw. subst st0. cbn [fs log]. by rewrite insert_insert_eq.
  - destruct Hw as [c' ->]. by eexists.
Qed.

End Report.

(** ** Candidates: lemmas *)

Section Candidates.

Context (w : World) (download_dir : Path).


(** The terminal state of a candidate, by what happens to it. *)
Lemma candidate_state_cases (t : nat) (result : SearchResult) :
  let p := download_dir // safe_filename (clean_title result) in
  let s := candidate_state w download_dir t result in
  (candidate_download download_dir result = None
   /\ (s = Skipped \/ s = Errored))
  \/ exists u,
       candidate_download download_dir result = Some (u, p)
       /\ ((download_succeeds w t u p = false /\ s = Failed)
           \/ (download_succeeds w t u p = true /\ received w t u = []
               /\ s = EmptyDiscarded)
           \/ (download_succeeds w t u p = true /\ received w t u <> []
               /\ s = Recorded
                        (mkDownloadRecord
                           (safe_filename (clean_title result)) u
                           (format_mb (Z.of_nat (length (received w t u))))))).
Proof.
  intros p s. subst s. unfold candidate_state, candidate_download. fold p.
  destruct (bool_decide _); [by left; auto|].
  destruct (default _ _) as [|image_info ?]; [by left; auto|].
  destruct (ii_url image_info) as [u|]; [|by left; auto].
  right. exists u. split; [done|].
  destruct (download_succeeds w t u p); [|by left].
  right. destruct (received w t u) as [|b c] eqn:Hrec; [by left|by right].
Qed.

End Candidates.

(** ** The properties the specification states *)

(** *** The downloader *)



(** *** The cap *)

(** C2, refuted as stated: with a negative cap the loop collects nothing,
    and the count returned, 0, is greater than the cap. *)
Lemma negative_cap_count_exceeds :
  snd (process_images ex_world "cats" (-1) ex_state) = Ok 0
  /\ ~ (0 <= -1).
Proof. split; [vm_compute; reflexivity | lia]. Qed.

(** C2, amended.  For a cap that is not negative, the records collected by
    a run of [process_images] number at most the cap and at most the
    results the search returned, and the count returned is their number.
    With the cap reached the loop ends whatever candidates remain; below
    it the next candidate is processed; and a candidate that is skipped,
    fails, is discarded or raises leaves the list of records as it was. *)
Theorem download_count_within_cap
    (w : World) (term : string) (max_images : Z) (st : State) :
  0 <= max_images ->
  (exists st1 downloaded,
     collect w term max_images st = (st1, Ok downloaded)
     /\ Z.of_nat (length downloaded) <= max_images
     /\ (exists st2 results,
           search_wikimedia w term
             (mkState (fs st) (EvMkdir (download_dir_of w term) :: log st))
             = (st2, Ok results)
           /\ (length downloaded <= length results)%nat)
     /\ forall st' n,
          process_images w term max_images st = (st', Ok n) ->
          n = Z.of_nat (length downloaded))
  /\ (forall dir results downloaded st0,
        max_images <= Z.of_nat (length downloaded) ->
        download_loop w dir max_images results downloaded st0
          = (st0, Ok downloaded))
  /\ (forall dir result rest downloaded st0,
        Z.of_nat (length downloaded) < max_images ->
        download_loop w dir max_images (result :: rest) downloaded st0
          = (downloaded' <- loop_body w dir result downloaded ;;
             download_loop w dir max_images rest downloaded') st0)
  /\ (forall dir result downloaded st0,
        (forall r, candidate_state w dir (length (log st0)) result
                     <> Recorded r) ->
        exists st0', loop_body w dir result downloaded st0
                       = (st0', Ok downloaded)).
Proof.
  intros Hmax. repeat split.
  - destruct (download_loop_spec w (download_dir_of w term) max_images
                (search_results w (S (length (log st))) term) []
                (mkState (fs st)
                   (EvSearch term :: EvMkdir (download_dir_of w term)
                      :: log st)))
      as (st1 & added & Heq & Hlen & Hcap & _).
    cbn [app length] in Heq, Hcap.
    exists st1, added. rewrite collect_spec. split; [done|].
    split; [lia|]. split.
    { rewrite search_wikimedia_spec. by eexists _, _. }
    intros st' n. rewrite process_images_collect. unfold bind at 1.
    rewrite collect_spec, Heq. unfold bind.
    destruct added as [|r0 added0]; [by intros [= _ <-]|].
    cbv iota.
    destruct (write_report w _ (r0 :: added0) st1) as [st2 [[]|e]]; [|done].
    by intros [= _ <-].
  - intros. by apply download_loop_full.
  - intros. by apply download_loop_step.
  - intros dir result downloaded st0 Hnot.
    destruct (loop_body_cases w dir result downloaded st0)
      as (st0' & downloaded' & Heq & [->|(r & Hr & _)]); [eauto|].
    by destruct (Hnot r).
Qed.

(** A cap of one over four candidates: at most one record. *)
Lemma download_count_within_cap_witness :
  exists st1 downloaded,
    collect ex_world "cats" 1 ex_state = (st1, Ok downloaded)
    /\ Z.of_nat (length downloaded) <= 1.
Proof.
  destruct (download_count_within_cap ex_world "cats" 1 ex_state)
    as [(st1 & downloaded & Heq & Hcap & _) _]; [lia|].
  exists st1, downloaded. split; [exact Heq | exact Hcap].
Defined.

(** *** Records *)

(** C3. An iteration of the loop appends a record only for a file that is
    on disk with more than 0 bytes, whose size the record carries; when
    [download_file] reports success and the file it wrote is empty, the
    file is deleted and the list of records, which is what the cap counts,
    stays as it was.  Hence every record a run collects carries the size
    of a file of more than 0 bytes. *)
Theorem record_only_for_nonempty_file
    (w : World) (download_dir : Path) (result : SearchResult)
    (downloaded : list DownloadRecord) (st : State) :
  (exists st' downloaded',
     loop_body w download_dir result downloaded st = (st', Ok downloaded')
     /\ (downloaded' = downloaded
         \/ exists r c,
              downloaded' = downloaded ++ [r]
              /\ fs st' !! (download_dir // filename r) = Some c
              /\ (0 < length c)%nat
              /\ size r = format_mb (Z.of_nat (length c)))
     /\ (forall u p st1,
           candidate_download download_dir result = Some (u, p) ->
           download_file w u p st = (st1, Ok true) ->
           fs st1 !! p = Some [] ->
           downloaded' = downloaded /\ fs st' !! p = None))
  /\ (forall term max_images st0 st1 collected,
        collect w term max_images st0 = (st1, Ok collected) ->
        Forall (fun r => exists n, 0 < n /\ size r = format_mb n) collected).
Proof.
  split.
  - set (t := length (log st)).
    set (p := download_dir // safe_filename (clean_title result)).
    pose proof (loop_body_spec w download_dir result downloaded st) as Hbody.
    cbv zeta in Hbody. fold t in Hbody.
    destruct (candidate_state_cases w download_dir t result)
      as [[Hnone Hs]|(u & Hsome & Hs)].
    + rewrite Hnone in Hbody.
      assert (Heq : loop_body w download_dir result downloaded st
                    = (st, Ok downloaded)).
      { rewrite Hbody. by destruct (candidate_state _ _ _ _). }
      exists st, downloaded. split; [done|]. split; [by left|].
      intros u' p' st1. by rewrite Hnone.
    + fold p in Hsome, Hs. rewrite Hsome in Hbody.
      destruct Hs as [[Hok Hs]|[(Hok & Hrec & Hs)|(Hok & Hrec & Hs)]];
        rewrite Hs in Hbody; rewrite Hbody; eexists _, _; (split; [done|]).
      * split; [by left|]. intros u' p' st1. rewrite Hsome.
        intros Hup. injection Hup as <- <-.
        rewrite download_file_spec. fold t. by rewrite Hok.
      * split; [by left|]. intros u' p' st1. rewrite Hsome.
        intros Hup _ _. injection Hup as <- <-.
        split; [done|]. apply lookup_delete_eq.
      * split.
        { right. eexists _, (received w t u). split; [done|].
          cbn [fs filename size]. fold p. rewrite lookup_insert_eq.
          split; [done|]. split; [|done].
          destruct (received w t u); [done|cbn [length]; lia]. }
        intros u' p' st1. rewrite Hsome. intros Hup. injection Hup as <- <-.
        rewrite download_file_spec. fold t. rewrite Hok.
        intros [= <-]. cbn [fs]. rewrite lookup_insert_eq. congruence.
  - intros term max_images st0 st1 collected. rewrite collect_spec.
    destruct (download_loop_spec w (download_dir_of w term) max_images
                (search_results w (S (length (log st0))) term) []
                (mkState (fs st0)
                   (EvSearch term :: EvMkdir (download_dir_of w term)
                      :: log st0)))
      as (st2 & added & -> & _ & _ & Hall).
    cbn [app]. intros [= _ <-].
    eapply Forall_impl; [exact Hall|].
    intros r (res & t & _ & Hr).
    destruct (candidate_state_cases w (download_dir_of w term) t res)
      as [[_ [Hs|Hs]]|(u & _ & [[_ Hs]|[(_ & _ & Hs)|(_ & Hrec & Hs)]])];
      rewrite Hs in Hr; try discriminate.
    injection Hr as <-. cbn [size]. eexists. split; [|done].
    destruct (received w t u); [done|cbn [length]; lia].
Qed.

(** The records of the example run carry the sizes of files of two, of
    three and of one byte; where the download of a candidate succeeds with an
    empty file, the iteration leaves no file and no record. *)
Lemma record_only_for_nonempty_file_witness :
  Forall (fun r => exists n, 0 < n /\ size r = format_mb n) ex_records
  /\ snd (loop_body ex_world_empty_files (download_dir_of ex_world "cats")
                    ex_spaced [] ex_state) = Ok []
  /\ fs (fst (loop_body ex_world_empty_files (download_dir_of ex_world "cats")
                        ex_spaced [] ex_state)) !! ex_target = None.
Proof.
  split.
  - assert (Hrecords :
      snd (collect ex_world "cats" 5 ex_state) = Ok ex_records)
      by (vm_compute; reflexivity).
    destruct (collect ex_world "cats" 5 ex_state) as [st1 r] eqn:Hrun.
    cbn [snd] in Hrecords. subst r.
    exact (proj2 (record_only_for_nonempty_file ex_world
                    (download_dir_of ex_world "cats") ex_spaced [] ex_state)
                 "cats" 5 ex_state st1 ex_records Hrun).
  - destruct (proj1 (record_only_for_nonempty_file ex_world_empty_files
                       (download_dir_of ex_world "cats") ex_spaced []
                       ex_state))
      as (st' & downloaded' & Heq & _ & Hempty).
    rewrite Heq. cbn [fst snd].
    assert (Hok : snd (download_file ex_world_empty_files "https://up/u1"
                                     ex_target ex_state) = Ok true)
      by (vm_compute; reflexivity).
    assert (Hfile : fs (fst (download_file ex_world_empty_files
                               "https://up/u1" ex_target ex_state))
                      !! ex_target = Some [])
      by (vm_compute; reflexivity).
    destruct (download_file ex_world_empty_files "https://up/u1" ex_target
                            ex_state) as [st1 r] eqn:Hdl.
    cbn [fst snd] in Hok, Hfile. subst r.
    destruct (Hempty "https://up/u1" ex_target st1) as [-> Hgone];
      [vm_compute; reflexivity | exact Hdl | exact Hfile |].
    split; [reflexivity | exact Hgone].
Defined.

(** *** The entry point *)

(** C4. The count [main] passes to [process_images] is 10 when the second
    input line does not parse as an integer, and otherwise the parsed
    integer [n] clamped to [min(max(1, n), 500)]: 1 for [n <= 0], 500 for
    [n > 500], and [n] itself for [1 <= n <= 500]. *)
Theorem read_max_images_clamps (w : World) (line : string) :
  (PyStr.int (int_max_str_digits w) line = None -> read_max_images w line = 10)
  /\ (forall n,
        PyStr.int (int_max_str_digits w) line = Some n ->
        read_max_images w line = Z.min (Z.max 1 n) 500
        /\ (n <= 0 -> read_max_images w line = 1)
        /\ (500 < n -> read_max_images w line = 500)
        /\ (1 <= n <= 500 -> read_max_images w line = n))
  /\ (forall line1 rest st,
        PyStr.strip line1 <> "" ->
        main w (line1 :: line :: rest) st =
          (count <- process_images w (PyStr.strip line1)
                                   (read_max_images w line) ;;
           ret tt) st).
Proof.
  unfold read_max_images. split; [by intros ->|]. split.
  - intros n ->. repeat split; lia.
  - intros line1 rest st Hterm. unfold main.
    by rewrite bool_decide_eq_false_2.
Qed.

(** The inputs [0], [-7], [9_000], [42] and [lots] give 1, 1, 500, 42
    and 10. *)
Lemma read_max_images_clamps_witness :
  read_max_images ex_world "0" = 1
  /\ read_max_images ex_world " -7" = 1
  /\ read_max_images ex_world "9_000" = 500
  /\ read_max_images ex_world "42 " = 42
  /\ read_max_images ex_world "lots" = 10.
Proof.
  split; [|split; [|split; [|split]]].
  - apply (proj1 (proj2 (read_max_images_clamps ex_world "0")) 0);
      [reflexivity | lia].
  - apply (proj1 (proj2 (read_max_images_clamps ex_world " -7")) (-7));
      [reflexivity | lia].
  - apply (proj1 (proj2 (read_max_images_clamps ex_world "9_000")) 9000);
      [reflexivity | lia].
  - apply (proj1 (proj2 (read_max_images_clamps ex_world "42 ")) 42);
      [reflexivity | lia].
  - apply (proj1 (read_max_images_clamps ex_world "lots")). reflexivity.
Defined.

(** *** The throttle *)




(** *** Paths and names *)

(** C6, refuted as stated: the terms [a b] and [a_b] are distinct and
    share their download directory. *)
Lemma download_dir_collision :
  "a b" <> "a_b"
  /\ download_dir_of ex_world "a b" = download_dir_of ex_world "a_b".
Proof. split; [discriminate | reflexivity]. Qed.

(** C6, amended.  The download directory is a function of the term with
    its spaces replaced by underscores: terms that agree after the
    replacement share a directory, and terms of one path component share
    a directory only then.  On such terms without underscores the mapping
    is injective. *)
Theorem download_dir_injective_on_plain_terms
    (w : World) (term1 term2 : string) :
  (spaces_to_underscores term1 = spaces_to_underscores term2 ->
   download_dir_of w term1 = download_dir_of w term2)
  /\ (component_term term1 -> component_term term2 ->
      download_dir_of w term1 = download_dir_of w term2 ->
      spaces_to_underscores term1 = spaces_to_underscores term2)
  /\ (plain_term term1 -> plain_term term2 -> term1 <> term2 ->
      download_dir_of w term1 <> download_dir_of w term2).
Proof.
  assert (Hshare : component_term term1 -> component_term term2 ->
            download_dir_of w term1 = download_dir_of w term2 ->
            spaces_to_underscores term1 = spaces_to_underscores term2).
  { unfold download_dir_of. rewrite !replace_space.
    intros (Hne1 & Hslash1) (Hne2 & Hslash2) Heq.
    set (t1 := spaces_to_underscores term1) in *.
    set (t2 := spaces_to_underscores term2) in *.
    assert (H1 : t1 <> "") by (by intros ?%spaces_to_underscores_nil).
    assert (H2 : t2 <> "") by (by intros ?%spaces_to_underscores_nil).
    rewrite (joinpath_no_slash _ t1), (joinpath_no_slash _ t2) in Heq
      by (by subst t1 t2; rewrite has_char_spaces_to_underscores).
    apply (f_equal parts) in Heq. cbn [parts] in Heq.
    apply app_inv_head in Heq.
    destruct (decide (t1 <> "" /\ t1 <> ".")) as [_|Hn1],
             (decide (t2 <> "" /\ t2 <> ".")) as [_|Hn2];
      try discriminate Heq; [congruence|].
    destruct (decide (t1 = ".")) as [->|?], (decide (t2 = ".")) as [->|?];
      tauto. }
  split; [|split; [exact Hshare|]].
  - unfold download_dir_of. rewrite !replace_space. by intros ->.
  - intros [Hc1 Hus1] [Hc2 Hus2] Hdiff Heq.
    apply Hdiff, spaces_to_underscores_inj; [done..|]. by apply Hshare.
Qed.

(** The terms [red panda] and [redpanda] have different directories;
    the terms [red panda] and [red_panda] have the same. *)
Lemma download_dir_injective_on_plain_terms_witness :
  download_dir_of ex_world "red panda" <> download_dir_of ex_world "redpanda"
  /\ download_dir_of ex_world "red panda"
     = download_dir_of ex_world "red_panda".
Proof.
  split.
  - apply (proj2 (proj2 (download_dir_injective_on_plain_terms
                           ex_world "red panda" "redpanda")));
      [repeat split; discriminate || reflexivity ..| discriminate].
  - apply (proj1 (download_dir_injective_on_plain_terms
                    ex_world "red panda" "red_panda")).
    reflexivity.
Defined.

(** C7, refuted as stated: [File:] is removed wherever it occurs, so the
    title [aFile:b.jpg], which has no [File:] prefix and no space, is not
    preserved. *)
Lemma safe_filename_inner_prefix :
  safe_filename (clean_title (mkSearchResult (Some "aFile:b.jpg") None))
    = "ab.jpg"
  /\ spec_safe_filename "aFile:b.jpg" = "aFile:b.jpg".
Proof. split; reflexivity. Qed.

(** C7, amended.  For a title in which [File:] occurs at most as the
    leading prefix, the safe filename is the title with that prefix
    stripped and every space replaced by an underscore, the other
    characters being kept: it has the length of the stripped title. *)
Theorem safe_filename_strips_and_replaces
    (full_title : string) (info : option (list ImageInfo)) :
  PyStr.occurs "File:" (strip_file_prefix full_title) = false ->
  safe_filename (clean_title (mkSearchResult (Some full_title) info))
    = spec_safe_filename full_title
  /\ String.length (safe_filename
                      (clean_title (mkSearchResult (Some full_title) info)))
     = String.length (strip_file_prefix full_title).
Proof.
  intros Habsent.
  assert (Heq :
    safe_filename (clean_title (mkSearchResult (Some full_title) info))
    = spec_safe_filename full_title).
  { unfold safe_filename, clean_title, spec_safe_filename.
    cbn [default title]. unfold id.
    rewrite replace_space. f_equal. revert Habsent.
    unfold strip_file_prefix, PyStr.replace. cbv beta iota.
    destruct (String.prefix "File:" full_title) eqn:Hp; intros Habsent.
    - rewrite (prefix_drop _ _ Hp) at 1.
      rewrite replace_file_prefix. by apply replace_go_absent.
    - by apply replace_go_absent. }
  split; [done|]. rewrite Heq. unfold spec_safe_filename, spaces_to_underscores.
  clear Heq Habsent.
  induction (strip_file_prefix full_title) as [|c s IH]; [done|].
  cbn [map_chars String.length]. by f_equal.
Qed.

(** The title [File:Red panda.jpg] gives [Red_panda.jpg]. *)
Lemma safe_filename_strips_and_replaces_witness :
  safe_filename (clean_title (mkSearchResult (Some "File:Red panda.jpg") None))
    = "Red_panda.jpg".
Proof.
  apply (proj1 (safe_filename_strips_and_replaces
                  "File:Red panda.jpg" None eq_refl)).
Defined.

(** *** The report *)



(** The report of the example run. *)
Example report_of_example_run :
  string_of_list_byte
    <$> fs (fst (process_images ex_world "cats" 5 ex_state))
          !! report_path_of ex_world "cats"
  = Some ("# Downloaded Images Report" +:+ nl +:+ nl +:+
          "## a_b" +:+ nl +:+
          "- Source: https://up/u1" +:+ nl +:+
          "- Size: 0.0 MB" +:+ nl +:+ nl +:+
          "## a_b" +:+ nl +:+
          "- Source: https://up/u2" +:+ nl +:+
          "- Size: 0.0 MB" +:+ nl +:+ nl +:+
          "## a_b" +:+ nl +:+
          "- Source: https://up/u3" +:+ nl +:+
          "- Size: 0.0 MB" +:+ nl +:+ nl).
Proof. vm_compute. reflexivity. Qed.

(** *** The search *)

(** C9. [search_wikimedia] does not raise: it returns a list, which is
    empty when the request meets a transport error or the response is
    malformed, and it leaves the files alone.  When the search of a run
    returns the empty list, [process_images] returns 0 in the state the
    search left: no download is requested and no file is written. *)
Theorem empty_search_returns_zero
    (w : World) (term : string) (max_images : Z) (st : State) :
  (exists st' results,
     search_wikimedia w term st = (st', Ok results)
     /\ fs st' = fs st
     /\ log st' = EvSearch term :: log st
     /\ (SearchFailure w (length (log st)) term -> results = []))
  /\ (forall st1,
        search_wikimedia w term
          (mkState (fs st) (EvMkdir (download_dir_of w term) :: log st))
          = (st1, Ok []) ->
        process_images w term max_images st = (st1, Ok 0)
        /\ fs st1 = fs st
        /\ log st1 = EvSearch term :: EvMkdir (download_dir_of w term)
                       :: log st).
Proof.
  split.
  - rewrite search_wikimedia_spec. eexists _, _. split; [done|].
    cbn [fs log]. repeat split. unfold search_results.
    intros [H|r H Hs|r H Hj|r d H Hj Hq|r d q H Hj Hq Hp]; rewrite H; [done|..].
    + by rewrite Hs.
    + rewrite Hj. by destruct (api_status_ok r).
    + rewrite Hj, Hq. by destruct (api_status_ok r).
    + rewrite Hj, Hq, Hp. by destruct (api_status_ok r).
  - intros st1 Hsearch. unfold process_images, bind, mkdir, emit.
    cbv zeta. rewrite Hsearch. split; [done|].
    rewrite search_wikimedia_spec in Hsearch. by injection Hsearch as <- _.
Qed.

(** With the API out of reach the search returns the empty list, and the
    run returns 0 and has requested no download. *)
Lemma empty_search_returns_zero_witness :
  snd (search_wikimedia ex_world_offline "cats" ex_state) = Ok []
  /\ process_images ex_world_offline "cats" 5 ex_state
     = (mkState ∅ [EvSearch "cats"; EvMkdir (download_dir_of ex_world "cats")],
        Ok 0).
Proof.
  destruct (empty_search_returns_zero ex_world_offline "cats" 5 ex_state)
    as [(st' & results & Heq & _ & _ & Hfail) Hrun].
  split.
  - rewrite Heq. cbn [snd]. f_equal. apply Hfail.
    apply SearchUnreachable. reflexivity.
  - destruct (Hrun (mkState ∅ [EvSearch "cats";
                                EvMkdir (download_dir_of ex_world "cats")]))
      as (Hzero & _); [reflexivity|].
    exact Hzero.
Defined.

(** *** Colliding names *)

(** C10. The titles [File:a b], [File:a_b] and [a b] are distinct and have
    the same safe filename, [a_b].  In the example run the three are
    downloaded to the same path, each download replacing the file of the
    one before, and a record is appended for each: the three records have
    the same filename, and the run, which returns 3, leaves two files on
    disk, the last download and the report. *)
Theorem colliding_titles_overwrite :
  (title ex_spaced <> title ex_underscored
   /\ title ex_spaced <> title ex_bare
   /\ title ex_underscored <> title ex_bare)
  /\ (filename <$> ex_records = ["a_b"; "a_b"; "a_b"]
      /\ safe_filename (clean_title ex_spaced) = "a_b"
      /\ safe_filename (clean_title ex_underscored) = "a_b"
      /\ safe_filename (clean_title ex_bare) = "a_b")
  /\ (let dir := download_dir_of ex_world "cats" in
      let run1 := loop_body ex_world dir ex_spaced [] ex_state in
      let records1 := match snd run1 with Ok l => l | Raise _ => [] end in
      let run2 := loop_body ex_world dir ex_underscored records1 (fst run1) in
      fs (fst run1) !! ex_target = Some ["a"%byte; "b"%byte]
      /\ fs (fst run2) !! ex_target = Some ["x"%byte; "y"%byte; "z"%byte]
      /\ snd run2 = Ok (take 2 ex_records))
  /\ snd (collect ex_world "cats" 5 ex_state) = Ok ex_records
  /\ snd (process_images ex_world "cats" 5 ex_state) = Ok 3
  /\ (let final := fs (fst (process_images ex_world "cats" 5 ex_state)) in
      final !! ex_target = Some ["w"%byte]
      /\ base.size final = 2%nat
      /\ (base.size final < length ex_records)%nat).
Proof.
  split; [repeat split; discriminate|].
  repeat split; vm_compute; (reflexivity || lia).
Qed.

(** ** Further lemmas on the script *)

Section Frames.

Context (w : World).







End Frames.

Section LoopTrace.

Context (w : World) (download_dir : Path).

Lemma candidate_entry_cases (result : SearchResult) :
  (candidate_entry result = None
   /\ candidate_download download_dir result = None)
  \/ exists u,
       candidate_entry result = Some (safe_filename (clean_title result), u)
       /\ candidate_download download_dir result
          = Some (u, download_dir // safe_filename (clean_title result)).
Proof.
  unfold candidate_entry, candidate_download.
  destruct (bool_decide (clean_title result = "")); [by left|].
  destruct (default [empty_info] (imageinfo result)) as [|i ?]; [by left|].
  destruct (ii_url i) as [u|]; [right; by exists u | by left].
Qed.

(** What one iteration does, by the candidate's entry. *)
Lemma loop_body_steps (result : SearchResult)
    (downloaded : list DownloadRecord) (st : State) :
  (candidate_entry result = None
   /\ loop_body w download_dir result downloaded st = (st, Ok downloaded))
  \/ exists name u,
       candidate_entry result = Some (name, u)
       /\ name = safe_filename (clean_title result)
       /\ ((exists sleeps,
              (sleeps = [] \/ sleeps = [EvSleep 1])
              /\ loop_body w download_dir result downloaded st
                 = (mkState (delete (download_dir // name) (fs st))
                            (sleeps ++ EvGet u :: log st), Ok downloaded))
           \/ (exists c,
                 c <> []
                 /\ loop_body w download_dir result downloaded st
                    = (mkState (<[download_dir // name := c]> (fs st))
                               (EvSleep 1 :: EvGet u :: log st),
                       Ok (downloaded ++
                           [mkDownloadRecord name u
                              (format_mb (Z.of_nat (length c)))])))).
Proof.
  rewrite loop_body_spec. cbv zeta.
  destruct (candidate_entry_cases result) as [[He Hd]|(u & He & Hd)].
  - left. split; [done|]. rewrite Hd.
    by destruct (candidate_state w download_dir (length (log st)) result).
  - right. exists (safe_filename (clean_title result)), u.
    split; [done|]. split; [done|]. rewrite Hd.
    destruct (candidate_state_cases w download_dir (length (log st)) result)
      as [[Hnone _]|(u' & Hsome & Hcase)]; [congruence|].
    rewrite Hd in Hsome. injection Hsome as <-.
    destruct Hcase as [[_ ->]|[(_ & _ & ->)|(_ & Hne & ->)]].
    + left. exists [EvSleep 1]. split; [by right | done].
    + left. exists []. split; [by left | done].
    + right. by exists (received w (length (log st)) u).
Qed.

(** A relation that holds of no iteration at all and is kept by one more
    iteration in front holds of every run of the loop. *)
Lemma download_loop_rel (max_images : Z)
    (R : list SearchResult -> State -> list DownloadRecord ->
         State -> list DownloadRecord -> Prop) :
  (forall results st d, R results st d st d) ->
  (forall result rest st d st1 d1 st2 d2,
     loop_body w download_dir result d st = (st1, Ok d1) ->
     R rest st1 d1 st2 d2 -> R (result :: rest) st d st2 d2) ->
  forall results d st,
    exists st' d',
      download_loop w download_dir max_images results d st = (st', Ok d')
      /\ R results st d st' d'.
Proof.
  intros Hrefl Hstep results.
  induction results as [|result rest IH]; intros d st.
  - eexists _, _. split; [done | apply Hrefl].
  - cbn [download_loop]. destruct (Z.of_nat (length d) >=? max_images).
    + eexists _, _. split; [done | apply Hrefl].
    + destruct (loop_body_cases w download_dir result d st)
        as (st1 & d1 & Hb & _).
      unfold bind. rewrite Hb.
      destruct (IH d1 st1) as (st2 & d2 & Hl & HR).
      eexists _, _. split; [exact Hl|]. by eapply Hstep.
Qed.






(** The records are those of candidates that reached the downloader, in
    the order of the search results. *)
Lemma download_loop_entries (max_images : Z) (results : list SearchResult)
    (d : list DownloadRecord) (st : State) :
  exists st' d',
    download_loop w download_dir max_images results d st = (st', Ok d')
    /\ exists new,
         d' = d ++ new
         /\ sublist (record_entry <$> new) (omap candidate_entry results).
Proof.
  apply (download_loop_rel max_images
           (fun results st d st' d' =>
              exists new,
                d' = d ++ new
                /\ sublist (record_entry <$> new)
                           (omap candidate_entry results))).
  { intros results0 st0 d0. exists []. rewrite app_nil_r.
    split; [done | apply sublist_nil_l]. }
  clear. intros result rest st d st1 d1 st2 d2 Hb (new & -> & Hsub).
  cbn [omap list_omap].
  destruct (loop_body_steps result d st)
    as [[He Hs]|(name & u & He & _ & [(sl & _ & Hs)|(c & _ & Hs)])];
    rewrite He; rewrite Hs in Hb; injection Hb as <- <-.
  - by exists new.
  - exists new. split; [done | by apply sublist_cons].
  - eexists (_ :: new). rewrite <- app_assoc. split; [done|].
    cbn [fmap list_fmap]. by apply sublist_skip.
Qed.

End LoopTrace.

Section Names.

Lemma has_space_spaces_to_underscores (s : string) :
  PyStr.has_char " " (spaces_to_underscores s) = false.
Proof.
  induction s as [|c s IH]; [done|].
  cbn. destruct (Ascii.eqb c " ") eqn:Hc; [done|].
  by rewrite Hc.
Qed.

Lemma spaces_to_underscores_idemp (s : string) :
  spaces_to_underscores (spaces_to_underscores s) = spaces_to_underscores s.
Proof.
  induction s as [|c s IH]; [done|].
  cbn. fold (spaces_to_underscores s).
  fold (spaces_to_underscores (spaces_to_underscores s)). rewrite IH.
  destruct (Ascii.eqb c " ") eqn:Hc; [done|]. by rewrite Hc.
Qed.

(** What an entry says of the candidate it comes from. *)
Lemma candidate_entry_some (result : SearchResult) (name u : string) :
  candidate_entry result = Some (name, u) ->
  name = safe_filename (clean_title result)
  /\ clean_title result <> ""
  /\ exists i rest, imageinfo result = Some (i :: rest) /\ ii_url i = Some u.
Proof.
  unfold candidate_entry. case_bool_decide as Ht; [done|].
  destruct (imageinfo result) as [[|i rest]|]; cbn [default]; unfold id;
    [done| |done].
  destruct (ii_url i) as [u'|] eqn:Hu; [|done].
  intros [= <- <-]. repeat split; [done|]. by exists i, rest.
Qed.

End Names.

Section Strip.







End Strip.

Section RunTrace.

Context (w : World).


Lemma read_max_images_range (line : string) :
  1 <= read_max_images w line <= 500
  /\ (PyStr.int (int_max_str_digits w) line = None ->
      read_max_images w line = 10).
Proof.
  unfold read_max_images.
  destruct (PyStr.int (int_max_str_digits w) line); split; (done || lia).
Qed.

Lemma main_two_lines (line1 line2 : string) (rest : list string) (st : State) :
  PyStr.strip line1 <> "" ->
  main w (line1 :: line2 :: rest) st =
    (count <- process_images w (PyStr.strip line1) (read_max_images w line2) ;;
     ret tt) st.
Proof.
  intros Hne. unfold main. cbv zeta. by rewrite bool_decide_eq_false_2.
Qed.

End RunTrace.

Section Destinations.

Lemma safe_filename_slash (t : string) :
  PyStr.has_char "/" (safe_filename t) = PyStr.has_char "/" t.
Proof.
  unfold safe_filename. rewrite replace_space.
  by apply has_char_spaces_to_underscores.
Qed.

Lemma safe_filename_dot (t : string) : safe_filename t = "." -> t = ".".
Proof.
  unfold safe_filename. rewrite replace_space.
  destruct t as [|c [|c' t]]; [done| |done].
  cbn. destruct (Ascii.eqb c " "); [done|]. by intros [= ->].
Qed.

Lemma safe_filename_nil (t : string) : safe_filename t = "" -> t = "".
Proof.
  unfold safe_filename. rewrite replace_space.
  apply spaces_to_underscores_nil.
Qed.

(** The destination of a candidate whose title, without [File:], has no
    slash and is not a dot: the download directory and one more
    component. *)
Lemma destination_one_component (download_dir : Path) (result : SearchResult)
    (u : string) (p : Path) :
  candidate_download download_dir result = Some (u, p) ->
  PyStr.has_char "/" (clean_title result) = false ->
  clean_title result <> "." ->
  p = mkPath (root download_dir)
             (parts download_dir ++ [safe_filename (clean_title result)]).
Proof.
  intros Hd Hslash Hdot.
  destruct (candidate_entry_cases download_dir result)
    as [[_ Hnone]|(u' & He & Hsome)]; [congruence|].
  apply candidate_entry_some in He as (_ & Hne & _).
  rewrite Hsome in Hd. injection Hd as <- <-.
  rewrite joinpath_no_slash by by rewrite safe_filename_slash.
  rewrite decide_True; [done|].
  split; intros H;
    [by apply safe_filename_nil in H | by apply safe_filename_dot in H].
Qed.

Lemma root_of_absolute (s : string) :
  PyPath.root_of (String "/" s) = "/" \/ PyPath.root_of (String "/" s) = "//".
Proof.
  destruct s as [|c2 s2]; [by left|].
  destruct c2 as [[] [] [] [] [] [] [] []]; try (left; reflexivity).
  destruct s2 as [|c3 s3]; [by right|].
  destruct c3 as [[] [] [] [] [] [] [] []];
    (left; reflexivity) || (right; reflexivity).
Qed.

(** An absolute string replaces the path it is joined to. *)
Lemma joinpath_absolute (p1 p2 : Path) (s : string) :
  p1 // String "/" s = p2 // String "/" s.
Proof.
  unfold PyPath.joinpath.
  by destruct (root_of_absolute s) as [-> | ->].
Qed.

End Destinations.

Section ReportText.

Lemma append_assoc (s1 s2 s3 : string) :
  (s1 +:+ s2) +:+ s3 = s1 +:+ (s2 +:+ s3).
Proof.
  induction s1 as [|c s1 IH]; [done|].
  cbv [String.append]. fold String.append. by rewrite IH.
Qed.

Lemma append_cons (c : ascii) (s1 s2 : string) :
  String c s1 +:+ s2 = String c (s1 +:+ s2).
Proof. done. Qed.

(** Two texts that agree, each a line without a break followed by a line
    break and a rest, agree on the line and on the rest. *)
Lemma first_line_inj (s1 s2 r1 r2 : string) :
  one_line s1 -> one_line s2 ->
  s1 +:+ nl +:+ r1 = s2 +:+ nl +:+ r2 -> s1 = s2 /\ r1 = r2.
Proof.
  unfold one_line. revert s2.
  induction s1 as [|c s1 IH]; intros [|c2 s2] H1 H2 Heq.
  - change (String "010" r1 = String "010" r2) in Heq.
    by injection Heq as ->.
  - exfalso. change (String "010" r1 = String c2 (s2 +:+ nl +:+ r2)) in Heq.
    injection Heq as <- _. by cbn in H2.
  - exfalso. change (String c (s1 +:+ nl +:+ r1) = String "010" r2) in Heq.
    injection Heq as -> _. by cbn in H1.
  - change (String c (s1 +:+ nl +:+ r1) = String c2 (s2 +:+ nl +:+ r2)) in Heq.
    injection Heq as -> Heq.
    cbn in H1, H2.
    apply orb_false_iff in H1 as [_ H1]. apply orb_false_iff in H2 as [_ H2].
    destruct (IH s2 H1 H2 Heq) as [-> ->]. done.
Qed.

Lemma report_section_inj (a b : DownloadRecord) (ra rb : string) :
  one_line_record a -> one_line_record b ->
  report_section a +:+ ra = report_section b +:+ rb -> a = b /\ ra = rb.
Proof.
  intros (Ha1 & Ha2 & Ha3) (Hb1 & Hb2 & Hb3). unfold report_section.
  rewrite !append_assoc. intros Heq.
  apply String.app_inj in Heq.
  apply first_line_inj in Heq as [Hf Heq]; [|done..].
  apply String.app_inj in Heq.
  apply first_line_inj in Heq as [Hu Heq]; [|done..].
  apply String.app_inj in Heq.
  apply first_line_inj in Heq as [Hs Heq]; [|done..].
  apply String.app_inj in Heq.
  destruct a, b; cbn in *. by subst.
Qed.

(** The sections of a report determine the records, when no field of a
    record has a line break. *)
Lemma report_sections_inj (d1 d2 : list DownloadRecord) :
  Forall one_line_record d1 -> Forall one_line_record d2 ->
  report_sections d1 = report_sections d2 -> d1 = d2.
Proof.
  revert d2. induction d1 as [|a d1 IH]; intros [|b d2] H1 H2 Heq.
  - done.
  - exfalso. cbn [report_sections] in Heq. unfold report_section in Heq.
    rewrite !append_assoc in Heq. by rewrite append_cons in Heq.
  - exfalso. cbn [report_sections] in Heq. unfold report_section in Heq.
    rewrite !append_assoc in Heq. by rewrite append_cons in Heq.
  - apply Forall_cons in H1 as [Ha H1]. apply Forall_cons in H2 as [Hb H2].
    cbn [report_sections] in Heq.
    apply report_section_inj in Heq as [-> Heq]; [|done..].
    by rewrite (IH d2 H1 H2 Heq).
Qed.

Lemma bytes_of_inj (s1 s2 : string) : bytes_of s1 = bytes_of s2 -> s1 = s2.
Proof.
  unfold bytes_of. intros H.
  rewrite <- (string_of_list_byte_of_string s1),
          <- (string_of_list_byte_of_string s2).
  by rewrite H.
Qed.

End ReportText.

Section LoopFiles.

Context (w : World) (download_dir : Path).


End LoopFiles.


(** ** Further properties of the code *)

(** *** [get_file_info] *)

(** X1. [get_file_info] does not raise, leaves the files alone and makes
    one request.  It returns a dictionary exactly when the reply is JSON
    whose [query.pages] is not empty and whose first page has a non-empty
    [imageinfo] list, and the dictionary is the first element of that
    list; later pages are not looked at. *)
Theorem get_file_info_first_page
    (info_api : nat -> string -> option ApiResponse) (filename : string)
    (st : State) :
  exists r,
    get_file_info info_api filename st
      = (mkState (fs st) (EvGet api_url :: log st), Ok r)
    /\ forall info,
         r = Some info <->
         exists response data q pageid page rest infos,
           info_api (length (log st)) ("File:" +:+ filename) = Some response
           /\ api_json response = Some data
           /\ query data = Some q
           /\ pages q = Some ((pageid, page) :: rest)
           /\ imageinfo page = Some (info :: infos).
Proof.
  unfold get_file_info. rewrite try_bind. unfold requests_get_info.
  destruct (info_api _ _) as [response|].
  2:{ eexists. split; [done|]. intros info. split; [done|].
      by intros (? & ? & ? & ? & ? & ? & ? & ? & _). }
  destruct (api_json response) as [data|] eqn:Hj.
  2:{ rewrite try_bind_raise. eexists. split; [done|].
      intros info. split; [done|].
      intros (? & ? & ? & ? & ? & ? & ? & [= <-] & ? & _). congruence. }
  rewrite try_bind_ret. cbv zeta.
  destruct (query data) as [q|] eqn:Hq.
  2:{ eexists. split; [done|]. intros info. split; [done|].
      intros (? & ? & ? & ? & ? & ? & ? & [= <-] & ? & ? & _). congruence. }
  destruct (pages q) as [[|[pageid page] rest]|] eqn:Hp; cbn [default];
    unfold id; cbv beta iota.
  1,3: eexists; (split; [done|]); intros info; (split; [done|]);
       intros (? & ? & ? & ? & ? & ? & ? & [= <-] & ? & ? & ? & _);
       congruence.
  destruct (imageinfo page) as [[|info0 infos]|] eqn:Hi; unfold first.
  - rewrite try_bind_raise. eexists. split; [done|].
    intros info. split; [done|].
    intros (? & ? & ? & ? & ? & ? & ? & [= <-] & ? & ? & ? & ?). congruence.
  - rewrite try_bind_ret. eexists. split; [done|]. intros info. split.
    + intros [= <-]. by eexists _, _, _, _, _, _, _.
    + intros (? & ? & ? & ? & ? & ? & ? & [= <-] & ? & ? & ? & ?).
      congruence.
  - eexists. split; [done|]. intros info. split; [done|].
    intros (? & ? & ? & ? & ? & ? & ? & [= <-] & ? & ? & ? & ?). congruence.
Qed.

(** X2. [get_file_info] and [search_wikimedia] read the same reply
    differently: on a reply with a good status, [get_file_info] returns
    the first [imageinfo] entry of the first page [search_wikimedia]
    returns; on a reply with an error status the search returns no result
    ([raise_for_status]), and [get_file_info], which does not check the
    status, answers as if the status were good. *)
Theorem get_file_info_agrees_with_search
    (w : World) (info_api : nat -> string -> option ApiResponse)
    (filename term : string) (st st' : State) (response : ApiResponse) :
  info_api (length (log st)) ("File:" +:+ filename) = Some response ->
  api w (length (log st')) term = Some response ->
  exists results,
    snd (search_wikimedia w term st') = Ok results
    /\ (api_status_ok response = true ->
        snd (get_file_info info_api filename st)
          = Ok ((head results ≫= imageinfo) ≫= head))
    /\ (api_status_ok response = false ->
        results = []
        /\ snd (get_file_info info_api filename st)
           = snd (get_file_info
                    (fun _ _ => Some (mkApiResponse true (api_json response)))
                    filename st)).
Proof.
  intros Hinfo Hapi. exists (search_results w (length (log st')) term).
  rewrite search_wikimedia_spec. split; [done|].
  unfold search_results. rewrite Hapi.
  unfold get_file_info. rewrite !try_bind. unfold requests_get_info.
  rewrite Hinfo. cbn [api_json].
  destruct (api_status_ok response); split; intros Hok; try done.
  - destruct (api_json response) as [data|];
      [rewrite try_bind_ret | by rewrite try_bind_raise].
    cbv zeta.
    destruct (query data) as [q|]; [|done].
    destruct (pages q) as [[|[pageid page] rest]|]; cbn [default];
      unfold id; cbv beta iota; try done.
    cbn [fmap list_fmap head snd mbind option_bind].
    destruct (imageinfo page) as [[|info infos]|]; [|done..].
    unfold first. by rewrite try_bind_raise.
Qed.

Lemma get_file_info_agrees_with_search_witness :
  exists results,
    snd (search_wikimedia ex_world_bad_status "a b.jpg" ex_state) = Ok results
    /\ (api_status_ok ex_info_reply = true ->
        snd (get_file_info ex_info_api "a b.jpg" ex_state)
          = Ok ((head results ≫= imageinfo) ≫= head))
    /\ (api_status_ok ex_info_reply = false ->
        results = []
        /\ snd (get_file_info ex_info_api "a b.jpg" ex_state)
           = snd (get_file_info
                    (fun _ _ =>
                       Some (mkApiResponse true (api_json ex_info_reply)))
                    "a b.jpg" ex_state)).
Proof.
  apply (get_file_info_agrees_with_search ex_world_bad_status ex_info_api
           "a b.jpg" "a b.jpg" ex_state ex_state ex_info_reply);
    reflexivity.
Defined.

(** *** [download_file] *)


(** X4. The length the server declares is parsed and printed and not
    compared with what arrives: when the request, the file and the
    stream are good, the destination holds the chunks received, whatever
    length was declared and whatever the file held before. *)
Theorem download_file_keeps_body_whatever_length
    (w : World) (url : string) (filepath : Path) (st : State)
    (response : HttpResponse) (h : string) (n : Z) :
  http w (length (log st)) url = Some response ->
  status_ok response = true ->
  content_length response = Some h ->
  PyStr.int (int_max_str_digits w) h = Some n ->
  true_div_overflows n 1024 = false ->
  writable w filepath = true ->
  within_limit w (length (concat (body response))) = true ->
  complete response = true ->
  download_file w url filepath st =
    (mkState (<[filepath := concat (body response)]> (fs st))
             (EvGet url :: log st), Ok true).
Proof.
  intros Hhttp Hstatus Hlen Hint Hdiv Hw Hlim Hc.
  rewrite download_file_spec. cbv zeta.
  unfold download_succeeds, received.
  rewrite Hhttp, Hstatus, Hlen, Hint, Hdiv, Hw, Hlim, Hc. done.
Qed.

Lemma download_file_keeps_body_whatever_length_witness :
  download_file ex_world_wrong_length "https://up/u1" ex_target
                ex_state_old_file =
    (mkState (<[ex_target := ["a"%byte; "b"%byte]]> (fs ex_state_old_file))
             [EvGet "https://up/u1"], Ok true).
Proof.
  apply (download_file_keeps_body_whatever_length ex_world_wrong_length
           "https://up/u1" ex_target ex_state_old_file
           (mkHttpResponse true (Some "-5") [["a"%byte; "b"%byte]] true)
           "-5" (-5));
    reflexivity.
Defined.

(** *** [process_images] *)




(** X7. The records a run collects are those of candidates that reached
    the downloader, each under its safe filename and url, in the order of
    the search results, every candidate at most once. *)
Theorem records_follow_search_order
    (w : World) (term : string) (max_images : Z) (st : State) :
  exists st1 downloaded,
    collect w term max_images st = (st1, Ok downloaded)
    /\ sublist (record_entry <$> downloaded)
               (omap candidate_entry
                     (search_results w (S (length (log st))) term)).
Proof.
  rewrite collect_spec. cbv zeta.
  destruct (download_loop_entries w (download_dir_of w term) max_images
              (search_results w (S (length (log st))) term) []
              (mkState (fs st)
                 (EvSearch term :: EvMkdir (download_dir_of w term) :: log st)))
    as (st1 & d1 & Hl & new & -> & Hsub).
  by exists st1, new.
Qed.

(** X8. Every record a run collects comes from a search result with a
    title that is not empty once [File:] is removed: its filename is not
    empty, has no space and is its own safe filename, and its url is the
    url of the first [imageinfo] entry of that result. *)
Theorem records_have_safe_names
    (w : World) (term : string) (max_images : Z) (st : State) :
  exists st1 downloaded,
    collect w term max_images st = (st1, Ok downloaded)
    /\ Forall (fun r =>
                 filename r <> ""
                 /\ PyStr.has_char " " (filename r) = false
                 /\ safe_filename (filename r) = filename r
                 /\ exists result i rest,
                      result ∈ search_results w (S (length (log st))) term
                      /\ filename r = safe_filename (clean_title result)
                      /\ imageinfo result = Some (i :: rest)
                      /\ ii_url i = Some (url r))
              downloaded.
Proof.
  rewrite collect_spec. cbv zeta.
  destruct (download_loop_entries w (download_dir_of w term) max_images
              (search_results w (S (length (log st))) term) []
              (mkState (fs st)
                 (EvSearch term :: EvMkdir (download_dir_of w term) :: log st)))
    as (st1 & d1 & Hl & new & -> & Hsub).
  exists st1, new. split; [done|]. cbn [app].
  apply Forall_forall. intros r Hr.
  assert (record_entry r ∈ omap candidate_entry
            (search_results w (S (length (log st))) term)) as Hin.
  { eapply elem_of_sublist; [|exact Hsub]. by apply list_elem_of_fmap_2. }
  apply list_elem_of_omap in Hin as (result & Hres & Hentry).
  apply candidate_entry_some in Hentry as (Hname & Hne & i & rest & Hi & Hu).
  unfold safe_filename in *. rewrite replace_space in *.
  rewrite Hname. repeat split.
  - intros H. by apply spaces_to_underscores_nil in H.
  - apply has_space_spaces_to_underscores.
  - apply spaces_to_underscores_idemp.
  - exists result, i, rest. by rewrite replace_space.
Qed.



(** *** [main] *)


(** X11. Whatever is typed at the second prompt, a run of [main] with a
    search term collects at most 500 records, and at most 10 when the
    second line is not a number; [main] then writes the report of these
    records, if there is any. *)
Theorem main_collects_at_most_500
    (w : World) (line1 line2 : string) (rest : list string) (st : State) :
  PyStr.strip line1 <> "" ->
  exists st1 downloaded,
    collect w (PyStr.strip line1) (read_max_images w line2) st
      = (st1, Ok downloaded)
    /\ (length downloaded <= 500)%nat
    /\ (PyStr.int (int_max_str_digits w) line2 = None ->
        (length downloaded <= 10)%nat)
    /\ main w (line1 :: line2 :: rest) st =
         (match downloaded with
          | [] => ret tt
          | _ => write_report w (report_path_of w (PyStr.strip line1))
                              downloaded
          end ;;; ret tt) st1.
Proof.
  intros Hne. rewrite main_two_lines by done.
  assert (forall st0,
            (count <- process_images w (PyStr.strip line1)
                        (read_max_images w line2) ;; ret tt) st0
            = (downloaded <- collect w (PyStr.strip line1)
                               (read_max_images w line2) ;;
               match downloaded with
               | [] => ret tt
               | _ => write_report w (report_path_of w (PyStr.strip line1))
                                   downloaded
               end ;;; ret tt) st0) as Hrun.
  { intros st0. unfold bind at 1. rewrite process_images_collect.
    unfold bind.
    destruct (collect w (PyStr.strip line1) (read_max_images w line2) st0)
      as [s [d|e]]; [|done].
    destruct (match d with
              | [] => ret tt
              | _ :: _ =>
                  write_report w (report_path_of w (PyStr.strip line1)) d
              end s) as [s2 [[]|e]]; done. }
  rewrite Hrun. unfold bind at 1. rewrite collect_spec. cbv zeta.
  destruct (download_loop_spec w (download_dir_of w (PyStr.strip line1))
              (read_max_images w line2)
              (search_results w (S (length (log st))) (PyStr.strip line1)) []
              (mkState (fs st)
                 (EvSearch (PyStr.strip line1)
                  :: EvMkdir (download_dir_of w (PyStr.strip line1))
                  :: log st)))
    as (st1 & added & -> & _ & Hcap & _).
  cbn [app length] in *.
  destruct (read_max_images_range w line2) as [Hrange Hdefault].
  exists st1, added. split_and!; [done|lia| |].
  - intros Hnone. rewrite (Hdefault Hnone) in Hcap. lia.
  - done.
Qed.

Lemma main_collects_at_most_500_witness :
  exists st1 downloaded,
    collect ex_world (PyStr.strip " cats ") (read_max_images ex_world "900") ex_state
      = (st1, Ok downloaded)
    /\ (length downloaded <= 500)%nat
    /\ (PyStr.int (int_max_str_digits ex_world) "900" = None ->
        (length downloaded <= 10)%nat)
    /\ main ex_world [" cats "; "900"] ex_state =
         (match downloaded with
          | [] => ret tt
          | _ => write_report ex_world
                              (report_path_of ex_world (PyStr.strip " cats "))
                              downloaded
          end ;;; ret tt) st1.
Proof.
  apply (main_collects_at_most_500 ex_world " cats " "900" [] ex_state).
  discriminate.
Defined.

(** *** Destinations *)

(** X12. For candidates whose titles, without [File:], have no slash and
    are not a dot, the destination is the download directory followed by
    the safe filename as one more component: it is never the directory
    itself, and two such candidates are written to the same file exactly
    when their safe filenames are equal. *)
Theorem plain_titles_collide_iff_same_safe_filename
    (download_dir : Path) (result1 result2 : SearchResult)
    (u1 u2 : string) (p1 p2 : Path) :
  candidate_download download_dir result1 = Some (u1, p1) ->
  candidate_download download_dir result2 = Some (u2, p2) ->
  PyStr.has_char "/" (clean_title result1) = false ->
  clean_title result1 <> "." ->
  PyStr.has_char "/" (clean_title result2) = false ->
  clean_title result2 <> "." ->
  p1 = mkPath (root download_dir)
              (parts download_dir ++ [safe_filename (clean_title result1)])
  /\ p1 <> download_dir
  /\ (p1 = p2 <->
      safe_filename (clean_title result1)
        = safe_filename (clean_title result2)).
Proof.
  intros Hd1 Hd2 Hs1 Hdot1 Hs2 Hdot2.
  rewrite (destination_one_component _ _ _ _ Hd1 Hs1 Hdot1).
  rewrite (destination_one_component _ _ _ _ Hd2 Hs2 Hdot2).
  split_and!; [done| |].
  - destruct download_dir as [r ps]. cbn [root parts]. intros [= H].
    apply (f_equal length) in H. rewrite length_app in H. cbn in H. lia.
  - split.
    + intros [= H]. apply app_inv_head in H. by injection H.
    + by intros ->.
Qed.

Lemma plain_titles_collide_iff_same_safe_filename_witness :
  ex_target = mkPath (root (download_dir_of ex_world "cats"))
                     (parts (download_dir_of ex_world "cats")
                      ++ [safe_filename (clean_title ex_spaced)])
  /\ ex_target <> download_dir_of ex_world "cats"
  /\ (ex_target = ex_target <->
      safe_filename (clean_title ex_spaced)
        = safe_filename (clean_title ex_underscored)).
Proof.
  apply (plain_titles_collide_iff_same_safe_filename
           (download_dir_of ex_world "cats") ex_spaced ex_underscored
           "https://up/u1" "https://up/u2" ex_target ex_target);
    (reflexivity || discriminate).
Defined.

(** X13. A title that, without [File:], starts with a slash is an
    absolute path for [pathlib]: the destination does not depend on the
    download directory, and the file is written outside it. *)
Theorem absolute_title_ignores_download_dir
    (dir1 dir2 : Path) (result : SearchResult) :
  String.prefix "/" (clean_title result) = true ->
  candidate_download dir1 result = candidate_download dir2 result.
Proof.
  intros Habs. unfold candidate_download.
  destruct (clean_title result) as [|c t]; [done|].
  rewrite prefix_char in Habs. apply Ascii.eqb_eq in Habs as ->.
  case_bool_decide; [done|].
  destruct (default [empty_info] (imageinfo result)) as [|i ?]; [done|].
  destruct (ii_url i) as [u|]; [|done].
  unfold safe_filename. rewrite replace_space.
  change (spaces_to_underscores (String "/" t))
    with (String "/" (spaces_to_underscores t)).
  by rewrite (joinpath_absolute dir1 dir2).
Qed.

Lemma absolute_title_ignores_download_dir_witness :
  candidate_download (download_dir_of ex_world "cats") ex_absolute
    = candidate_download ex_home ex_absolute
  /\ fs (fst (process_images ex_world_absolute "cats" 1 ex_state))
       !! mkPath "/" ["tmp"; "x_y"] = Some ["a"%byte; "b"%byte].
Proof.
  split.
  - apply (absolute_title_ignores_download_dir
             (download_dir_of ex_world "cats") ex_home ex_absolute).
    reflexivity.
  - vm_compute. reflexivity.
Defined.

(** *** The loop and the report *)

(** X14. A record stays in the list when a later candidate with the same
    destination fails: the failed download removes the file the record
    names, and the record is kept. *)
Theorem failed_download_removes_recorded_file
    (w : World) (download_dir : Path) (result : SearchResult)
    (downloaded : list DownloadRecord) (st : State) (r : DownloadRecord)
    (u : string) :
  r ∈ downloaded ->
  candidate_download download_dir result
    = Some (u, download_dir // filename r) ->
  download_succeeds w (length (log st)) u (download_dir // filename r)
    = false ->
  exists st',
    loop_body w download_dir result downloaded st = (st', Ok downloaded)
    /\ r ∈ downloaded
    /\ fs st' !! (download_dir // filename r) = None.
Proof.
  intros Hr Hd Hfail. rewrite loop_body_spec. cbv zeta.
  destruct (candidate_state_cases w download_dir (length (log st)) result)
    as [[Hnone _]|(u' & Hsome & Hcase)]; [congruence|].
  cbv zeta in Hsome. rewrite Hd in Hsome |- *. injection Hsome as <- Hp.
  rewrite <- Hp in Hcase.
  destruct Hcase as [[_ ->]|[(Hok & _)|(Hok & _)]]; [|congruence..].
  eexists. split; [done|]. split; [done|].
  cbn [fs]. apply lookup_delete_eq.
Qed.

Lemma failed_download_removes_recorded_file_witness :
  exists st',
    loop_body ex_world_second_fails (download_dir_of ex_world "cats")
              ex_underscored [ex_first_record] ex_state_after_first
      = (st', Ok [ex_first_record])
    /\ ex_first_record ∈ [ex_first_record]
    /\ fs st' !! (download_dir_of ex_world "cats" // filename ex_first_record)
       = None.
Proof.
  apply (failed_download_removes_recorded_file ex_world_second_fails
           (download_dir_of ex_world "cats") ex_underscored [ex_first_record]
           ex_state_after_first ex_first_record "https://up/u2").
  - apply list_elem_of_here.
  - reflexivity.
  - reflexivity.
Defined.

(** X15. The report [process_images] writes determines the records it
    was written from: two reports that were written in full with the same
    content list the same records, when no filename, url or size has a
    line break. *)
Theorem report_determines_records
    (w : World) (report_path : Path) (d1 d2 : list DownloadRecord)
    (st1 st2 st1' st2' : State) :
  Forall one_line_record d1 -> Forall one_line_record d2 ->
  write_report w report_path d1 st1 = (st1', Ok tt) ->
  write_report w report_path d2 st2 = (st2', Ok tt) ->
  fs st1' !! report_path = fs st2' !! report_path ->
  d1 = d2.
Proof.
  intros H1 H2 Hw1 Hw2 Heq.
  pose proof (write_report_spec w report_path d1 st1) as Hs1.
  pose proof (write_report_spec w report_path d2 st2) as Hs2.
  destruct (writable w report_path
            && within_limit w (length (bytes_of (report_text d1))));
    [|destruct Hs1 as [? Hs1]; congruence].
  destruct (writable w report_path
            && within_limit w (length (bytes_of (report_text d2))));
    [|destruct Hs2 as [? Hs2]; congruence].
  rewrite Hs1 in Hw1. rewrite Hs2 in Hw2.
  injection Hw1 as <-. injection Hw2 as <-. cbn [fs] in Heq.
  rewrite !lookup_insert_eq in Heq. injection Heq as Heq.
  apply bytes_of_inj in Heq. unfold report_text in Heq.
  apply String.app_inj in Heq. by apply report_sections_inj.
Qed.

Lemma report_determines_records_witness :
  snd (write_report ex_world (report_path_of ex_world "cats") ex_records
                    ex_state) = Ok tt
  /\ snd (write_report ex_world (report_path_of ex_world "cats") ex_records
                       ex_state_old_file) = Ok tt
  /\ ex_records = ex_records.
Proof.
  assert (snd (write_report ex_world (report_path_of ex_world "cats")
                 ex_records ex_state) = Ok tt) as Ha
    by (vm_compute; reflexivity).
  assert (snd (write_report ex_world (report_path_of ex_world "cats")
                 ex_records ex_state_old_file) = Ok tt) as Hb
    by (vm_compute; reflexivity).
  assert (fs (fst (write_report ex_world (report_path_of ex_world "cats")
                     ex_records ex_state))
            !! report_path_of ex_world "cats"
          = fs (fst (write_report ex_world (report_path_of ex_world "cats")
                       ex_records ex_state_old_file))
              !! report_path_of ex_world "cats") as Hc
    by (vm_compute; reflexivity).
  split; [exact Ha|]. split; [exact Hb|].
  destruct (write_report ex_world (report_path_of ex_world "cats")
              ex_records ex_state) as [s1 r1] eqn:H1.
  destruct (write_report ex_world (report_path_of ex_world "cats")
              ex_records ex_state_old_file) as [s2 r2] eqn:H2.
  cbn [fst snd] in Ha, Hb, Hc. subst r1 r2.
  apply (report_determines_records ex_world (report_path_of ex_world "cats")
           ex_records ex_records ex_state ex_state_old_file s1 s2);
    [| |exact H1|exact H2|exact Hc];
    repeat constructor.
Defined.


